(** * scrape.py: a shallow embedding of the scrape traversal and its checks

    The script walks a list of directories, keeps the files that pass an
    extension, an ignore and a size filter, and writes the records with
    two totals to a JSON document.  Every function of [scrape.py] is
    embedded below under its own name.  The file system is an oracle that
    may answer differently at every call, so races between two calls on
    the same path are part of the model. *)

From Stdlib Require Import ZArith Lia Ascii String List.
From stdpp Require Import base decidable option list strings gmap.

Local Open Scope string_scope.
Local Open Scope list_scope.
Local Open Scope Z_scope.

(** ** Python string primitives *)

Module Py.

(** [s.split(sep)] for a one-character separator: never empty, and an
    empty piece appears wherever two separators touch or one ends [s]. *)
Fixpoint split (sep : ascii) (s : string) : list string :=
  match s with
  | EmptyString => [EmptyString]
  | String c rest =>
      if Ascii.eqb c sep then EmptyString :: split sep rest
      else match split sep rest with
           | [] => [String c EmptyString]
           | piece :: pieces => String c piece :: pieces
           end
  end.

(** [sep.join(parts)]. *)
Fixpoint join (sep : string) (parts : list string) : string :=
  match parts with
  | [] => EmptyString
  | [p] => p
  | p :: ps => p +:+ sep +:+ join sep ps
  end.

(** [s.startswith(p)]. *)
Fixpoint startswith (p s : string) : bool :=
  match p, s with
  | EmptyString, _ => true
  | String a p', String b s' => Ascii.eqb a b && startswith p' s'
  | String _ _, EmptyString => false
  end.

(** [needle in haystack] on strings. *)
Fixpoint contains (needle haystack : string) : bool :=
  startswith needle haystack ||
  match haystack with
  | EmptyString => false
  | String _ rest => contains needle rest
  end.

(** [s.endswith(c)] for one character. *)
Fixpoint endswith_char (c : ascii) (s : string) : bool :=
  match s with
  | EmptyString => false
  | String a EmptyString => Ascii.eqb a c
  | String _ rest => endswith_char c rest
  end.

(** [s.rstrip(c)] for one character. *)
Fixpoint rstrip_char (c : ascii) (s : string) : string :=
  match s with
  | EmptyString => EmptyString
  | String a rest =>
      match rstrip_char c rest with
      | EmptyString => if Ascii.eqb a c then EmptyString else String a EmptyString
      | rest' => String a rest'
      end
  end.

(** [s == c * len(s)]. *)
Fixpoint all_char (c : ascii) (s : string) : bool :=
  match s with
  | EmptyString => true
  | String a rest => Ascii.eqb a c && all_char c rest
  end.

(** The last element of a list that [split] returned. *)
Definition last_part (parts : list string) : string := List.last parts EmptyString.

End Py.

(** ** [os.path] on POSIX

    [scrape.py] calls [os.path.join], [basename], [dirname] and
    [normpath]; they are transcribed from CPython's [posixpath]. *)

Module OsPath.

Definition sep : ascii := "/"%char.

(** [join(a, b)]: an absolute [b] replaces [a]; otherwise one separator
    is put between them unless [a] is empty or already ends with one. *)
Definition join (a b : string) : string :=
  if Py.startswith "/" b then b
  else if String.eqb a "" || Py.endswith_char sep a then a +:+ b
  else a +:+ "/" +:+ b.

(** [(p[:i], p[i:])] with [i = p.rfind('/') + 1]. *)
Fixpoint cut (p : string) : string * string :=
  match p with
  | EmptyString => (EmptyString, EmptyString)
  | String c rest =>
      let '(head, tail) := cut rest in
      match head with
      | String _ _ => (String c head, tail)
      | EmptyString =>
          if Ascii.eqb c sep then (String c EmptyString, tail)
          else (EmptyString, String c tail)
      end
  end.

Definition basename (p : string) : string := snd (cut p).

Definition dirname (p : string) : string :=
  let head := fst (cut p) in
  if negb (String.eqb head "") && negb (Py.all_char sep head)
  then Py.rstrip_char sep head
  else head.

(** The loop of [normpath] over the components; [new_comps] grows and
    shrinks at its end. *)
Fixpoint normpath_comps (initial_slashes : nat) (comps new_comps : list string)
  : list string :=
  match comps with
  | [] => new_comps
  | comp :: rest =>
      if String.eqb comp "" || String.eqb comp "." then
        normpath_comps initial_slashes rest new_comps
      else if negb (String.eqb comp "..")
           || (Nat.eqb initial_slashes 0 && bool_decide (new_comps = []))
           || (negb (bool_decide (new_comps = []))
               && String.eqb (List.last new_comps "") "..") then
        normpath_comps initial_slashes rest (new_comps ++ [comp])
      else if negb (bool_decide (new_comps = [])) then
        normpath_comps initial_slashes rest (removelast new_comps)
      else
        normpath_comps initial_slashes rest new_comps
  end.

Definition normpath (path : string) : string :=
  if String.eqb path "" then "."
  else
    let initial_slashes : nat :=
      if Py.startswith "/" path then
        if Py.startswith "//" path && negb (Py.startswith "///" path)
        then 2%nat else 1%nat
      else 0%nat in
    let comps := normpath_comps initial_slashes (Py.split sep path) [] in
    let joined := Py.join "/" comps in
    let path' :=
      match initial_slashes with
      | O => joined
      | S O => "/" +:+ joined
      | _ => "//" +:+ joined
      end in
    if String.eqb path' "" then "." else path'.

End OsPath.

(** ** The run: exceptions, the console, the file system

    Printing goes through the repository's [printer] module and every
    answer about files comes from the operating system.  Both are kept
    outside the functions: the console is a list of notices, the file
    system an oracle asked at a clock that ticks with every call. *)

Inductive io_error : Type :=
  | OSError (msg : string)
  | UnicodeDecodeError (msg : string).

Inductive exn : Type :=
  | IOFailure (e : io_error)
  | IndexError (msg : string)
  | SystemExit (code : Z).

(** [isinstance(e, Exception)]: [SystemExit] derives from
    [BaseException] only. *)
Definition is_Exception (e : exn) : bool :=
  match e with
  | SystemExit _ => false
  | _ => true
  end.

(** [f"{e}"]. *)
Definition exn_str (e : exn) : string :=
  match e with
  | IOFailure (OSError msg) => msg
  | IOFailure (UnicodeDecodeError msg) => msg
  | IndexError msg => msg
  | SystemExit _ => ""
  end.

(** Modelled from the spec: the [printer] module ([PrintUtils],
    [FormattedText]) is not among the sources; the spec calls its output
    a logged diagnostic, a progress notice and a success summary, none of
    which feeds back into the run. *)
Inductive notice : Type :=
  | ErrorNotice (msg : string)
  | ProgressNotice (index total : nat) (directory : string)
  | ScrapedNotice (file_count total_size : Z)
  | WrittenNotice (output : string).

Record ScrapeFile : Type := {
  name : string;
  directory : string;
  content : string;
  size : Z;
  scraped_at : option string
}.

(** The object handed to [json.dump]. *)
Record Document : Type := {
  doc_files : list ScrapeFile;
  doc_total_size : Z;
  doc_file_count : Z
}.

Inductive event : Type :=
  | Walk (directory : string)
  | Stat (filename : string)
  | Read (filename : string)
  | Now
  | Dump (output : string) (doc : Document).

Record FileSystem : Type := {
  fs_walk : nat -> string -> list (string * list string) * option io_error;
  fs_getsize : nat -> string -> io_error + Z;
  fs_read : nat -> string -> io_error + string;
  fs_now : nat -> string;
  fs_write : nat -> string -> option io_error
}.

Record Run : Type := {
  trace : list event;
  console : list notice
}.

Definition clock (r : Run) : nat := length (trace r).

Definition start : Run := {| trace := []; console := [] |}.

Definition record_event (ev : event) (r : Run) : Run :=
  {| trace := trace r ++ [ev]; console := console r |}.

Definition record_notice (n : notice) (r : Run) : Run :=
  {| trace := trace r; console := console r ++ [n] |}.

Inductive result (A : Type) : Type :=
  | Return (a : A)
  | Raise (e : exn).
Arguments Return {A} a.
Arguments Raise {A} e.

Definition M (A : Type) : Type := Run -> result A * Run.

Definition ret {A} (a : A) : M A := fun r => (Return a, r).

Definition raise {A} (e : exn) : M A := fun r => (Raise e, r).

Definition bind {A B} (m : M A) (k : A -> M B) : M B :=
  fun r =>
    match m r with
    | (Return a, r') => k a r'
    | (Raise e, r') => (Raise e, r')
    end.

(** [try: m  except Exception as e: handler(e)]. *)
Definition try_except {A} (m : M A) (handler : exn -> M A) : M A :=
  fun r =>
    match m r with
    | (Return a, r') => (Return a, r')
    | (Raise e, r') => if is_Exception e then handler e r' else (Raise e, r')
    end.

Definition lift {A} (x : result A) : M A := fun r => (x, r).

#[global] Instance M_ret : MRet M := @ret.
#[global] Instance M_bind : MBind M := fun A B k m => bind m k.

Definition PrintUtils_error (msg : string) : M unit :=
  fun r => (Return tt, record_notice (ErrorNotice msg) r).

Definition PrintUtils_info (index total : nat) (directory : string) : M unit :=
  fun r => (Return tt, record_notice (ProgressNotice index total directory) r).

Definition PrintUtils_success (n : notice) : M unit :=
  fun r => (Return tt, record_notice n r).

(** [[f(x) for x in xs]] with a body that can raise. *)
Fixpoint comprehension {A B} (f : A -> result B) (xs : list A) : result (list B) :=
  match xs with
  | [] => Return []
  | x :: rest =>
      match f x with
      | Raise e => Raise e
      | Return y =>
          match comprehension f rest with
          | Raise e => Raise e
          | Return ys => Return (y :: ys)
          end
      end
  end.

(** ** [scrape.py] *)

(** The parsed command line of [parse_args]. *)
Record Args : Type := {
  arg_extensions : string;
  arg_max_size : Z;
  arg_max_total_size : Z;
  arg_ignore_dirs : string;
  arg_dirs : string;
  arg_output : string
}.

Definition get_file_extension (filename : string) : string :=
  let parts := Py.split "." filename in
  if (1 <? length parts)%nat then Py.last_part parts else "".

Definition confirm_extension (filename : string) (extensions : gset string) : bool :=
  bool_decide (get_file_extension filename ∈ extensions).

Fixpoint file_in_ignore_dirs (filename : string) (ignore_dirs : list string) : bool :=
  match ignore_dirs with
  | [] => false
  | ignore_dir :: rest =>
      if Py.contains ignore_dir filename then true
      else file_in_ignore_dirs filename rest
  end.

Definition remove_dot_from_extension (extension : string) : result string :=
  match extension with
  | EmptyString => Raise (IndexError "string index out of range")
  | String c rest => if Ascii.eqb c "." then Return rest else Return extension
  end.

(** The loop of [remove_duplicate_paths] with its two accumulators. *)
Fixpoint remove_duplicate_paths_loop (paths : list string)
    (paths_os_normalized : gset string) (paths_filtered : list string) : list string :=
  match paths with
  | [] => paths_filtered
  | path :: rest =>
      let path_normalized := OsPath.normpath path in
      if bool_decide (path_normalized ∈ paths_os_normalized) then
        remove_duplicate_paths_loop rest paths_os_normalized paths_filtered
      else
        remove_duplicate_paths_loop rest
          ({[path_normalized]} ∪ paths_os_normalized) (paths_filtered ++ [path])
  end.

Definition remove_duplicate_paths (paths : list string) : list string :=
  remove_duplicate_paths_loop paths ∅ [].

(** What a loop body hands to the loop around it. *)
Inductive completion : Type :=
  | Normal
  | Break
  | Throw (e : exn).

(** The three locals of [scrape_directory] and of [scrape_directories]. *)
Record Totals : Type := {
  files : list ScrapeFile;
  total_size : Z;
  file_count : Z
}.

Definition no_totals : Totals := {| files := []; total_size := 0; file_count := 0 |}.

Section Scrape.

Variable fs : FileSystem.

Definition os_path_getsize (filename : string) : M Z :=
  fun r =>
    (match fs_getsize fs (clock r) filename with
     | inl e => Raise (IOFailure e)
     | inr n => Return n
     end, record_event (Stat filename) r).

Definition open_read (filename : string) : M string :=
  fun r =>
    (match fs_read fs (clock r) filename with
     | inl e => Raise (IOFailure e)
     | inr text => Return text
     end, record_event (Read filename) r).

Definition datetime_now_isoformat : M string :=
  fun r => (Return (fs_now fs (clock r)), record_event Now r).

Definition json_dump (output : string) (doc : Document) : M unit :=
  fun r =>
    match fs_write fs (clock r) output with
    | Some e => (Raise (IOFailure e), r)
    | None => (Return tt, record_event (Dump output doc) r)
    end.

Definition get_file_size (filename : string) : M Z :=
  try_except (os_path_getsize filename)
    (fun e => _ ← PrintUtils_error (exn_str e); mret 0).

Definition get_file_content (filename : string) : M (option string) :=
  try_except (text ← open_read filename; mret (Some text))
    (fun e => _ ← PrintUtils_error (exn_str e); mret None).

Definition scrape_file (filename : string) (extensions : gset string) (max_size : Z)
  : M (option ScrapeFile) :=
  if negb (confirm_extension filename extensions) then mret None
  else
    size ← get_file_size filename;
    if (size =? 0) || (size <=? 0) || (size >? max_size) then mret None
    else
      content ← get_file_content filename;
      match content with
      | None => mret None
      | Some text =>
          if String.eqb text "" then mret None
          else
            stamp ← datetime_now_isoformat;
            mret (Some {| name := OsPath.basename filename;
                          directory := OsPath.dirname filename;
                          content := text;
                          size := size;
                          scraped_at := Some stamp |})
      end.

Section Walk.

Variables (extensions : gset string) (max_size max_total_size : Z)
  (ignore_dirs : list string).

(** The body of [for filename in filenames]. *)
Definition visit (root filename : string) (acc : Totals)
  : Run -> completion * Totals * Run :=
  fun r =>
    let filepath := OsPath.join root filename in
    if file_in_ignore_dirs filepath ignore_dirs then (Normal, acc, r)
    else
      match scrape_file filepath extensions max_size r with
      | (Raise e, r1) => (Throw e, acc, r1)
      | (Return None, r1) => (Normal, acc, r1)
      | (Return (Some file), r1) =>
          let acc1 := {| files := files acc ++ [file];
                         total_size := total_size acc;
                         file_count := file_count acc |} in
          match get_file_size filepath r1 with
          | (Raise e, r2) => (Throw e, acc1, r2)
          | (Return n, r2) =>
              let acc2 := {| files := files acc1;
                             total_size := total_size acc1 + n;
                             file_count := file_count acc1 |} in
              if total_size acc2 >? max_total_size then (Break, acc2, r2)
              else (Normal, {| files := files acc2;
                               total_size := total_size acc2;
                               file_count := file_count acc2 + 1 |}, r2)
          end
      end.

(** [for filename in filenames]: a [break] ends this loop and nothing
    more, so the loop itself completes normally. *)
Fixpoint for_filenames (root : string) (filenames : list string) (acc : Totals)
  : Run -> completion * Totals * Run :=
  fun r =>
    match filenames with
    | [] => (Normal, acc, r)
    | filename :: rest =>
        match visit root filename acc r with
        | (Normal, acc', r') => for_filenames root rest acc' r'
        | (Break, acc', r') => (Normal, acc', r')
        | (Throw e, acc', r') => (Throw e, acc', r')
        end
    end.

(** [for root, _, filenames in os.walk(directory)]. *)
Fixpoint for_walk (entries : list (string * list string)) (acc : Totals)
  : Run -> completion * Totals * Run :=
  fun r =>
    match entries with
    | [] => (Normal, acc, r)
    | (root, filenames) :: rest =>
        match for_filenames root filenames acc r with
        | (Throw e, acc', r') => (Throw e, acc', r')
        | (_, acc', r') => for_walk rest acc' r'
        end
    end.

(** The [try] block, then [except Exception], then [finally: return],
    which returns the locals whatever happened. *)
Definition scrape_directory (directory : string) : M Totals :=
  fun r =>
    let '(entries, failure) := fs_walk fs (clock r) directory in
    let r0 := record_event (Walk directory) r in
    let '(outcome, acc, r1) := for_walk entries no_totals r0 in
    let raised :=
      match outcome with
      | Throw e => Some e
      | _ => option_map IOFailure failure
      end in
    match raised with
    | Some e =>
        if is_Exception e then (Return acc, record_notice (ErrorNotice (exn_str e)) r1)
        else (Return acc, r1)
    | None => (Return acc, r1)
    end.

(** The body of [for i, directory in enumerate(directories)]. *)
Fixpoint scrape_directories_loop (len_dirs i : nat) (directories : list string)
    (acc : Totals) : M Totals :=
  match directories with
  | [] => mret acc
  | directory :: rest =>
      _ ← PrintUtils_info (i + 1) len_dirs directory;
      found ← scrape_directory directory;
      let acc' := {| files := files acc ++ files found;
                     total_size := total_size acc + total_size found;
                     file_count := file_count acc + file_count found |} in
      if total_size acc' >? max_total_size then mret acc'
      else scrape_directories_loop len_dirs (S i) rest acc'
  end.

Definition scrape_directories (directories : list string) : M Totals :=
  scrape_directories_loop (length directories) 0 directories no_totals.

End Walk.

Definition main (args : Args) : M unit :=
  tokens ← lift (comprehension remove_dot_from_extension
                   (Py.split "," (arg_extensions args)));
  let extensions : gset string := list_to_set tokens in
  let directories := Py.split "," (arg_dirs args) in
  let ignore_dirs := Py.split "," (arg_ignore_dirs args) in
  let ignore_dirs := remove_duplicate_paths ignore_dirs in
  let ignore_dirs := map OsPath.normpath ignore_dirs in
  let directories := remove_duplicate_paths directories in
  if bool_decide (directories = []) then
    _ ← PrintUtils_error "No directories provided"; raise (SystemExit 1)
  else if bool_decide (extensions = ∅) then
    _ ← PrintUtils_error "No extensions provided"; raise (SystemExit 1)
  else
    found ← scrape_directories extensions (arg_max_size args)
              (arg_max_total_size args) ignore_dirs directories;
    _ ← PrintUtils_success (ScrapedNotice (file_count found) (total_size found));
    _ ← json_dump (arg_output args)
          {| doc_files := files found;
             doc_total_size := total_size found;
             doc_file_count := file_count found |};
    PrintUtils_success (WrittenNotice (arg_output args)).

End Scrape.

(** ** Reading a finished run *)

(** The directories handed to [os.walk], in order. *)
Fixpoint walked (t : list event) : list string :=
  match t with
  | [] => []
  | Walk d :: rest => d :: walked rest
  | _ :: rest => walked rest
  end.

(** The documents written, in order. *)
Fixpoint dumped (t : list event) : list Document :=
  match t with
  | [] => []
  | Dump _ doc :: rest => doc :: dumped rest
  | _ :: rest => dumped rest
  end.

Definition sum_sizes (fl : list ScrapeFile) : Z :=
  fold_right (fun f acc => size f + acc) 0 fl.

(** What [get_file_size] answers at clock [t]: the size, or 0 when the
    call fails. *)
Definition size_or_zero (fs : FileSystem) (t : nat) (filename : string) : Z :=
  match fs_getsize fs t filename with
  | inr n => n
  | inl _ => 0
  end.

(** A run only looked at files between [r] and [r']: no directory was
    walked and no document written. *)
Definition advances (r r' : Run) : Prop :=
  exists t, trace r' = trace r ++ t /\ walked t = [] /\ dumped t = [].

(** One file that got through: where the walk found it, the clock at
    which the filter was asked, the record, and the size that the walk
    added to its total. *)
Record acceptance : Type := {
  at_root : string;
  at_filename : string;
  at_clock : nat;
  emitted : ScrapeFile;
  added : Z
}.

Definition candidate_path (a : acceptance) : string :=
  OsPath.join (at_root a) (at_filename a).

Definition accepted (fs : FileSystem) (extensions : gset string) (max_size : Z)
    (ignore_dirs : list string) (a : acceptance) : Prop :=
  file_in_ignore_dirs (candidate_path a) ignore_dirs = false
  /\ get_file_extension (candidate_path a) ∈ extensions
  /\ fs_getsize fs (at_clock a) (candidate_path a) = inr (size (emitted a))
  /\ 0 < size (emitted a) <= max_size
  /\ fs_read fs (S (at_clock a)) (candidate_path a) = inr (content (emitted a))
  /\ content (emitted a) <> ""
  /\ name (emitted a) = OsPath.basename (candidate_path a)
  /\ directory (emitted a) = OsPath.dirname (candidate_path a)
  /\ added a = size_or_zero fs (3 + at_clock a) (candidate_path a).

(** The file of [a] was listed by a walk of one of [directories]. *)
Definition listed (fs : FileSystem) (directories : list string) (a : acceptance) : Prop :=
  exists t d filenames,
    In d directories
    /\ In (at_root a, filenames) (fst (fs_walk fs t d))
    /\ In (at_filename a) filenames.

Definition sum_added (l : list acceptance) : Z :=
  fold_right (fun a acc => added a + acc) 0 l.

(** ** Arguments, predicates and file systems used below *)

(** The arguments [main] passes on. *)
Definition ignore_list (args : Args) : list string :=
  map OsPath.normpath (remove_duplicate_paths (Py.split "," (arg_ignore_dirs args))).

Definition directory_list (args : Args) : list string :=
  remove_duplicate_paths (Py.split "," (arg_dirs args)).

(** A record and the path it was built from: a path that a walk of one
    of the directories listed, and that holds no ignore entry. *)
Definition clear_of (fs : FileSystem) (directories ignore_dirs : list string)
    (file : ScrapeFile) : Prop :=
  exists root filenames filename t d,
    In d directories
    /\ In (root, filenames) (fst (fs_walk fs t d))
    /\ In filename filenames
    /\ name file = OsPath.basename (OsPath.join root filename)
    /\ directory file = OsPath.dirname (OsPath.join root filename)
    /\ forall ignore_dir pre post,
         In ignore_dir ignore_dirs ->
         OsPath.join root filename <> pre +:+ ignore_dir +:+ post.

(** The second size answer for a file is the first one. *)
Definition restat_agrees (fs : FileSystem) : Prop :=
  forall t filename n,
    fs_getsize fs t filename = inr n -> fs_getsize fs (3 + t) filename = inr n.

Fixpoint text_of_length (n : nat) : string :=
  match n with
  | O => ""
  | S k => String "x" (text_of_length k)
  end.

Fixpoint lookup_path {A} (path : string) (table : list (string * A)) : option A :=
  match table with
  | [] => None
  | (p, x) :: rest => if String.eqb p path then Some x else lookup_path path rest
  end.

(** A file system that never changes: what each walk lists, and the
    byte count of every file; a file of [n] bytes reads as [n]
    characters. *)
Definition still_fs (walks : list (string * list (string * list string)))
    (sizes : list (string * nat)) : FileSystem :=
  {| fs_walk := fun _ d =>
       match lookup_path d walks with
       | Some entries => (entries, None)
       | None => ([], None)
       end;
     fs_getsize := fun _ p =>
       match lookup_path p sizes with
       | Some n => inr (Z.of_nat n)
       | None => inl (OSError "No such file or directory")
       end;
     fs_read := fun _ p =>
       match lookup_path p sizes with
       | Some n => inr (text_of_length n)
       | None => inl (OSError "No such file or directory")
       end;
     fs_now := fun _ => "2024-01-01T00:00:00";
     fs_write := fun _ _ => None |}.

(** [docs/] with [a.py] (50 bytes), [b.txt] (30 bytes) and [sub/c.py]
    (20 bytes). *)
Definition docs_fs : FileSystem :=
  still_fs
    [("docs/", [("docs/", ["a.py"; "b.txt"]); ("docs/sub", ["c.py"])]);
     ("docs", [("docs", ["a.py"; "b.txt"]); ("docs/sub", ["c.py"])])]
    [("docs/a.py", 50%nat); ("docs/b.txt", 30%nat); ("docs/sub/c.py", 20%nat)].

Definition docs_args : Args :=
  {| arg_extensions := "py"; arg_max_size := 1000; arg_max_total_size := 1000;
     arg_ignore_dirs := ""; arg_dirs := "docs/"; arg_output := "out.json" |}.

(** [d/] with [a.py] (60 bytes), [b.py] (10 bytes) and [sub/c.py]
    (60 bytes). *)
Definition nested_fs : FileSystem :=
  still_fs
    [("d", [("d", ["a.py"; "b.py"]); ("d/sub", ["c.py"])])]
    [("d/a.py", 60%nat); ("d/b.py", 10%nat); ("d/sub/c.py", 60%nat)].

(** [d/a.py] is 5 bytes when the filter asks and 7 bytes from the
    fourth call on. *)
Definition growing_fs : FileSystem :=
  {| fs_walk := fun _ d => if String.eqb d "d" then ([("d", ["a.py"])], None) else ([], None);
     fs_getsize := fun t p =>
       if String.eqb p "d/a.py" then inr (if (t <? 4)%nat then 5 else 7)
       else inl (OSError "No such file or directory");
     fs_read := fun _ p =>
       if String.eqb p "d/a.py" then inr "hello"
       else inl (OSError "No such file or directory");
     fs_now := fun _ => "2024-01-01T00:00:00";
     fs_write := fun _ _ => None |}.

(** [d/a.py] is there when the filter asks and gone at the fourth
    call, [d/b.py] cannot be asked for its size at all, and the walk of
    [d] ends with an error after it has listed the folder. *)
Definition vanishing_fs : FileSystem :=
  {| fs_walk := fun _ d =>
       if String.eqb d "d" then ([("d", ["a.py"; "b.py"])], Some (OSError "Input/output error"))
       else ([], None);
     fs_getsize := fun t p =>
       if String.eqb p "d/a.py" && (t <? 4)%nat then inr 5
       else inl (OSError "No such file or directory");
     fs_read := fun _ p =>
       if String.eqb p "d/a.py" then inr "hello"
       else inl (UnicodeDecodeError "invalid start byte");
     fs_now := fun _ => "2024-01-01T00:00:00";
     fs_write := fun _ _ => None |}.

Definition docs_args_without_sub : Args :=
  {| arg_extensions := "py"; arg_max_size := 1000; arg_max_total_size := 1000;
     arg_ignore_dirs := "sub"; arg_dirs := "docs/"; arg_output := "out.json" |}.

Definition docs_document_without_sub : Document :=
  {| doc_files := [{| name := "a.py"; directory := "docs";
                      content := text_of_length 50; size := 50;
                      scraped_at := Some "2024-01-01T00:00:00" |}];
     doc_total_size := 50;
     doc_file_count := 1 |}.

Definition twice_a_args : Args :=
  {| arg_extensions := ".py,txt"; arg_max_size := 1000; arg_max_total_size := 1000;
     arg_ignore_dirs := ""; arg_dirs := "a,./a"; arg_output := "out.json" |}.

Definition trailing_comma_args : Args :=
  {| arg_extensions := "py,"; arg_max_size := 1000; arg_max_total_size := 1000;
     arg_ignore_dirs := ""; arg_dirs := "docs/"; arg_output := "out.json" |}.

(** ** Further predicates and inputs *)

Definition dotted_args : Args :=
  {| arg_extensions := ".py,py,.txt"; arg_max_size := 1000; arg_max_total_size := 1000;
     arg_ignore_dirs := "sub"; arg_dirs := "docs/"; arg_output := "out.json" |}.

Definition plain_args : Args :=
  {| arg_extensions := "txt,py"; arg_max_size := 1000; arg_max_total_size := 1000;
     arg_ignore_dirs := "sub"; arg_dirs := "docs/"; arg_output := "out.json" |}.

(** No size answer is negative. *)
Definition nonnegative_sizes (fs : FileSystem) : Prop :=
  forall t filename n, fs_getsize fs t filename = inr n -> 0 <= n.

(** Records appended but not counted. *)
Definition lag (acc : Totals) : Z := Z.of_nat (length (files acc)) - file_count acc.

(** Every walk lists at most [k] folders. *)
Definition folders_at_most (fs : FileSystem) (k : nat) : Prop :=
  forall t directory, (length (fst (fs_walk fs t directory)) <= k)%nat.

(** A call that a walk over [directories] may make: a size or content
    call on a path that is not ignored and has a wanted extension, a call
    for the time, or a walk of one of the directories; never a write. *)
Definition allowed_call (extensions : gset string) (ignore_dirs directories : list string)
    (ev : event) : Prop :=
  match ev with
  | Stat path | Read path =>
      file_in_ignore_dirs path ignore_dirs = false
      /\ get_file_extension path ∈ extensions
  | Now => True
  | Walk directory => In directory directories
  | Dump _ _ => False
  end.

(** The calls made between [r] and [r'] all satisfy [P]. *)
Definition calls_between (P : event -> Prop) (r r' : Run) : Prop :=
  exists t, trace r' = trace r ++ t /\ Forall P t.

(** The folder and name of every file that a walk listed, in the order
    of the listing. *)
Definition listing (entries : list (string * list string)) : list (string * string) :=
  flat_map (fun entry => map (pair (fst entry)) (snd entry)) entries.

Definition found_at (a : acceptance) : string * string := (at_root a, at_filename a).

(** ** Runs, roots and inputs for the closer statements *)

(** In the run that ended at [r'], the call at [a]'s clock asked for the
    size of [a]'s file, the filter's call, and so did the call three
    places later, the walk's own. *)
Definition asked_twice (r' : Run) (a : acceptance) : Prop :=
  trace r' !! at_clock a = Some (Stat (candidate_path a))
  /\ trace r' !! (3 + at_clock a)%nat = Some (Stat (candidate_path a)).

(** [d/a.py] is 5 bytes for the first hundred calls and 7 bytes after
    them. *)
Definition late_fs : FileSystem :=
  {| fs_walk := fun _ d => if String.eqb d "d" then ([("d", ["a.py"])], None) else ([], None);
     fs_getsize := fun t p =>
       if String.eqb p "d/a.py" then inr (if (t <? 100)%nat then 5 else 7)
       else inl (OSError "No such file or directory");
     fs_read := fun _ p =>
       if String.eqb p "d/a.py" then inr "hello"
       else inl (OSError "No such file or directory");
     fs_now := fun _ => "2024-01-01T00:00:00";
     fs_write := fun _ _ => None |}.

(** [root] does not end in two slashes, unless it is made of slashes
    only. *)
Definition tidy_root (root : string) : Prop :=
  forall a, root = a +:+ "//" -> Py.all_char "/" root = true.

(** A record, the walked path it was built from and the ignore list:
    the path was listed by a walk of one of the directories and holds no
    ignore entry, the record's fields are its [dirname] and [basename],
    and joined again they give the path back, and so hold no entry
    either, when the listed name has no slash and the folder is tidy. *)
Definition kept_clear (fs : FileSystem) (directories ignore_dirs : list string)
    (file : ScrapeFile) : Prop :=
  exists root filenames filename t d,
    In d directories
    /\ In (root, filenames) (fst (fs_walk fs t d))
    /\ In filename filenames
    /\ name file = OsPath.basename (OsPath.join root filename)
    /\ directory file = OsPath.dirname (OsPath.join root filename)
    /\ file_in_ignore_dirs (OsPath.join root filename) ignore_dirs = false
    /\ (forall ignore_dir pre post,
          In ignore_dir ignore_dirs ->
          OsPath.join root filename <> pre +:+ ignore_dir +:+ post)
    /\ (Py.contains "/" filename = false -> tidy_root root ->
        OsPath.join (directory file) (name file) = OsPath.join root filename
        /\ file_in_ignore_dirs (OsPath.join (directory file) (name file)) ignore_dirs
           = false).

(** [docs//] with [a.py] (50 bytes), as a walk of [docs//] lists it. *)
Definition doubled_slash_fs : FileSystem :=
  still_fs [("docs//", [("docs//", ["a.py"])])] [("docs//a.py", 50%nat)].

Definition doubled_slash_args : Args :=
  {| arg_extensions := "py"; arg_max_size := 1000; arg_max_total_size := 1000;
     arg_ignore_dirs := "docs/a"; arg_dirs := "docs//"; arg_output := "out.json" |}.

(** [release-1.2/] and [plain/], each with a [README] of 10 bytes. *)
Definition release_fs : FileSystem :=
  still_fs
    [("release-1.2", [("release-1.2", ["README"])]); ("plain", [("plain", ["README"])])]
    [("release-1.2/README", 10%nat); ("plain/README", 10%nat)].

(** [--extensions .] asks for files without extension; the ignore entry
    is one that no path here holds. *)
Definition release_args : Args :=
  {| arg_extensions := "."; arg_max_size := 1000; arg_max_total_size := 1000;
     arg_ignore_dirs := "node_modules"; arg_dirs := "release-1.2";
     arg_output := "out.json" |}.

Definition plain_folder_args : Args :=
  {| arg_extensions := "."; arg_max_size := 1000; arg_max_total_size := 1000;
     arg_ignore_dirs := "node_modules"; arg_dirs := "plain";
     arg_output := "out.json" |}.



(** * Properties *)

Set Warnings "-clear-no-such-hyp".

(** ** Strings *)

Lemma startswith_prefix (p s : string) :
  Py.startswith p s = true <-> exists post, s = p +:+ post.
Proof.
  revert s. induction p as [|a p IH]; intros s; simpl.
  - split; [intros _; by exists s | done].
  - destruct s as [|b s]; simpl.
    + split; [done | intros [post H]; discriminate].
    + rewrite andb_true_iff, IH. split.
      * intros [Hab [post ->]]. apply Ascii.eqb_eq in Hab as ->. by exists post.
      * intros [post H]. injection H as -> ->. split; [apply Ascii.eqb_refl | by exists post].
Qed.

Lemma contains_substring (needle haystack : string) :
  Py.contains needle haystack = true
  <-> exists pre post, haystack = pre +:+ needle +:+ post.
Proof.
  induction haystack as [|c h IH]; simpl.
  - rewrite orb_false_r, startswith_prefix. split.
    + intros [post H]. by exists "", post.
    + intros [pre [post H]]. destruct pre; simpl in H; [by exists post | discriminate].
  - rewrite orb_true_iff, startswith_prefix, IH. split.
    + intros [[post H] | [pre [post H]]].
      * by exists "", post.
      * exists (String c pre), post. simpl. by rewrite H.
    + intros [pre [post H]]. destruct pre as [|x pre]; simpl in H.
      * left. by exists post.
      * right. injection H as _ H. by exists pre, post.
Qed.

Lemma split_nonempty sep s : Py.split sep s <> [].
Proof.
  destruct s as [|c s]; simpl; [done |].
  destruct (Ascii.eqb c sep); [done |]. by destruct (Py.split sep s).
Qed.

Lemma split_app_sep sep pre post :
  Py.split sep (pre +:+ String sep post) = Py.split sep pre ++ Py.split sep post.
Proof.
  induction pre as [|c pre IH]; simpl.
  - by rewrite Ascii.eqb_refl.
  - destruct (Ascii.eqb c sep); [by rewrite IH |].
    rewrite IH. destruct (Py.split sep pre) as [|x xs] eqn:E; [by apply split_nonempty in E |].
    done.
Qed.

Lemma split_without_sep sep s :
  Py.contains (String sep "") s = false -> Py.split sep s = [s].
Proof.
  induction s as [|c s IH]; simpl; [done |].
  rewrite orb_false_iff. intros [H1 H2].
  destruct (Ascii.eqb c sep) eqn:E.
  - apply Ascii.eqb_eq in E as ->. rewrite Ascii.eqb_refl in H1. by destruct s.
  - by rewrite IH.
Qed.

(** ** The run and the filter *)

Lemma walked_app t1 t2 : walked (t1 ++ t2) = walked t1 ++ walked t2.
Proof. induction t1 as [|[] t1 IH]; simpl; by rewrite ?IH. Qed.

Lemma dumped_app t1 t2 : dumped (t1 ++ t2) = dumped t1 ++ dumped t2.
Proof. induction t1 as [|[] t1 IH]; simpl; by rewrite ?IH. Qed.

Lemma advances_refl r : advances r r.
Proof. exists []. by rewrite app_nil_r. Qed.

Lemma advances_trans r1 r2 r3 : advances r1 r2 -> advances r2 r3 -> advances r1 r3.
Proof.
  intros (t1 & E1 & W1 & D1) (t2 & E2 & W2 & D2). exists (t1 ++ t2).
  rewrite E2, E1, <- app_assoc, walked_app, dumped_app, W1, W2, D1, D2. done.
Qed.

Lemma advances_event r r' ev :
  walked [ev] = [] -> dumped [ev] = [] -> advances r r' -> advances r (record_event ev r').
Proof.
  intros W D H. eapply advances_trans; [exact H |]. by exists [ev].
Qed.

Lemma advances_notice r r' n : advances r r' -> advances r (record_notice n r').
Proof.
  intros H. eapply advances_trans; [exact H |]. exists []. simpl. by rewrite app_nil_r.
Qed.

Ltac advance :=
  repeat first
    [ apply advances_refl
    | apply advances_notice
    | apply advances_event; [reflexivity | reflexivity |] ].

Lemma advances_walked r r' : advances r r' -> walked (trace r') = walked (trace r).
Proof. intros (t & -> & W & _). by rewrite walked_app, W, app_nil_r. Qed.

Lemma advances_dumped r r' : advances r r' -> dumped (trace r') = dumped (trace r).
Proof. intros (t & -> & _ & D). by rewrite dumped_app, D, app_nil_r. Qed.

Lemma clock_event ev r : clock (record_event ev r) = S (clock r).
Proof. unfold clock. simpl. rewrite length_app. simpl. lia. Qed.

Lemma clock_notice n r : clock (record_notice n r) = clock r.
Proof. done. Qed.

Section Filter.

Variable fs : FileSystem.

Lemma get_file_size_eq filename r :
  get_file_size fs filename r =
  match fs_getsize fs (clock r) filename with
  | inr n => (Return n, record_event (Stat filename) r)
  | inl e => (Return 0, record_notice (ErrorNotice (exn_str (IOFailure e)))
                          (record_event (Stat filename) r))
  end.
Proof.
  unfold get_file_size, try_except, os_path_getsize.
  by destruct (fs_getsize fs (clock r) filename).
Qed.

Lemma get_file_size_value filename r :
  exists r', get_file_size fs filename r = (Return (size_or_zero fs (clock r) filename), r')
             /\ advances r r'.
Proof.
  rewrite get_file_size_eq. unfold size_or_zero.
  destruct (fs_getsize fs (clock r) filename); eexists; (split; [reflexivity | advance]).
Qed.

Lemma get_file_content_eq filename r :
  get_file_content fs filename r =
  match fs_read fs (clock r) filename with
  | inr text => (Return (Some text), record_event (Read filename) r)
  | inl e => (Return None, record_notice (ErrorNotice (exn_str (IOFailure e)))
                             (record_event (Read filename) r))
  end.
Proof.
  unfold get_file_content, try_except, open_read, mbind, M_bind, bind.
  by destruct (fs_read fs (clock r) filename).
Qed.

(** The filter either hands back nothing, or a record whose fields are
    what the oracle answered. *)
Lemma scrape_file_cases filename extensions max_size r :
  (exists r', scrape_file fs filename extensions max_size r = (Return None, r')
              /\ advances r r')
  \/ (exists file,
        scrape_file fs filename extensions max_size r =
          (Return (Some file),
           record_event Now (record_event (Read filename) (record_event (Stat filename) r)))
        /\ get_file_extension filename ∈ extensions
        /\ fs_getsize fs (clock r) filename = inr (size file)
        /\ 0 < size file <= max_size
        /\ fs_read fs (S (clock r)) filename = inr (content file)
        /\ content file <> ""
        /\ name file = OsPath.basename filename
        /\ directory file = OsPath.dirname filename).
Proof.
  unfold scrape_file, confirm_extension.
  destruct (bool_decide (get_file_extension filename ∈ extensions)) eqn:Hext; simpl.
  2: { left. eexists. split; [reflexivity | advance]. }
  apply bool_decide_eq_true in Hext.
  unfold mbind, M_bind, bind. rewrite get_file_size_eq.
  destruct (fs_getsize fs (clock r) filename) as [e | n] eqn:Hsize.
  { left. simpl. eexists. split; [reflexivity | advance]. }
  destruct ((n =? 0) || (n <=? 0) || (n >? max_size)) eqn:Hn.
  { left. eexists. split; [reflexivity | advance]. }
  rewrite get_file_content_eq, clock_event.
  destruct (fs_read fs (S (clock r)) filename) as [e | text] eqn:Hread.
  { left. eexists. split; [reflexivity | advance]. }
  destruct (String.eqb text "") eqn:Htext.
  { left. eexists. split; [reflexivity | advance]. }
  right. eexists. split; [reflexivity |]. simpl.
  apply String.eqb_neq in Htext.
  repeat split; try done; lia.
Qed.

End Filter.

Lemma sum_added_app l1 l2 : sum_added (l1 ++ l2) = sum_added l1 + sum_added l2.
Proof. unfold sum_added. induction l1 as [|a l1 IH]; simpl; lia. Qed.

Lemma sum_sizes_app l1 l2 : sum_sizes (l1 ++ l2) = sum_sizes l1 + sum_sizes l2.
Proof. unfold sum_sizes. induction l1 as [|a l1 IH]; simpl; lia. Qed.

Section WalkLog.

Variables (fs : FileSystem) (extensions : gset string)
  (max_size max_total_size : Z) (ignore_dirs : list string).

Local Abbreviation visit' := (visit fs extensions max_size max_total_size ignore_dirs).
Local Abbreviation for_filenames' :=
  (for_filenames fs extensions max_size max_total_size ignore_dirs).
Local Abbreviation for_walk' := (for_walk fs extensions max_size max_total_size ignore_dirs).
Local Abbreviation accepted' := (accepted fs extensions max_size ignore_dirs).
Local Abbreviation scrape_directory' :=
  (scrape_directory fs extensions max_size max_total_size ignore_dirs).
Local Abbreviation scrape_directories_loop' :=
  (scrape_directories_loop fs extensions max_size max_total_size ignore_dirs).
Local Abbreviation scrape_directories' :=
  (scrape_directories fs extensions max_size max_total_size ignore_dirs).

(** One file name: either nothing changes, or one record is appended
    and the re-read size is added; the counter moves only when the cap
    still holds. *)
Lemma visit_cases root filename acc r :
  exists c acc' r',
    visit' root filename acc r = (c, acc', r') /\ advances r r'
    /\ ((c = Normal /\ acc' = acc)
        \/ exists a,
             accepted' a /\ at_root a = root /\ at_filename a = filename
             /\ files acc' = files acc ++ [emitted a]
             /\ total_size acc' = total_size acc + added a
             /\ ((c = Break /\ max_total_size < total_size acc'
                  /\ file_count acc' = file_count acc)
                 \/ (c = Normal /\ total_size acc' <= max_total_size
                     /\ file_count acc' = file_count acc + 1))).
Proof.
  unfold visit.
  destruct (file_in_ignore_dirs (OsPath.join root filename) ignore_dirs) eqn:Hign.
  { exists Normal, acc, r. split; [done |]. split; [apply advances_refl | by left]. }
  destruct (scrape_file_cases fs (OsPath.join root filename) extensions max_size r)
    as [(r1 & -> & Hadv) | (file & -> & Hext & Hsize & Hbound & Hread & Htext & Hname & Hdir)].
  { exists Normal, acc, r1. split; [done |]. split; [done | by left]. }
  set (r1 := record_event Now _).
  destruct (get_file_size_value fs (OsPath.join root filename) r1) as (r2 & -> & Hadv2).
  assert (Hadv : advances r r2).
  { eapply advances_trans; [| exact Hadv2]. unfold r1. advance. }
  replace (clock r1) with (3 + clock r)%nat by (unfold r1; by rewrite !clock_event).
  set (a := {| at_root := root; at_filename := filename; at_clock := clock r;
               emitted := file;
               added := size_or_zero fs (3 + clock r) (OsPath.join root filename) |}).
  assert (Ha : accepted' a) by (destruct Hbound; repeat split; done).
  simpl.
  change (size_or_zero fs (S (S (S (clock r)))) (OsPath.join root filename)) with (added a).
  rewrite Z.gtb_ltb.
  destruct (Z.ltb_spec max_total_size (total_size acc + added a)) as [Hcap | Hcap];
    do 3 eexists;
    (split; [reflexivity |]); (split; [exact Hadv |]); right; exists a; simpl;
    (split; [exact Ha |]); do 4 (split; [reflexivity |]).
  - left. repeat split; first [reflexivity | exact Hcap].
  - right. repeat split; first [reflexivity | exact Hcap].
Qed.

Lemma sum_added_cons a l : sum_added (a :: l) = added a + sum_added l.
Proof. reflexivity. Qed.

Lemma for_filenames_log root filenames acc r :
  exists acc' r' l,
    for_filenames' root filenames acc r = (Normal, acc', r') /\ advances r r'
    /\ Forall (fun a => accepted' a /\ at_root a = root /\ In (at_filename a) filenames) l
    /\ files acc' = files acc ++ map emitted l
    /\ total_size acc' = total_size acc + sum_added l
    /\ file_count acc <= file_count acc' <= file_count acc + Z.of_nat (length l).
Proof.
  revert acc r.
  induction filenames as [|filename rest IH]; intros acc r; simpl.
  { exists acc, r, []. simpl. rewrite app_nil_r.
    split_and!; try done; try lia. apply advances_refl. }
  destruct (visit_cases root filename acc r) as (c & acc1 & r1 & Hv & Hadv & Hcases).
  rewrite Hv. clear Hv.
  assert (Hweaken : forall l,
    Forall (fun a => accepted' a /\ at_root a = root /\ In (at_filename a) rest) l ->
    Forall (fun a => accepted' a /\ at_root a = root
                     /\ In (at_filename a) (filename :: rest)) l).
  { intros l Hl. eapply Forall_impl; [exact Hl |].
    intros x (? & ? & ?). split; [done | split; [done | by right]]. }
  destruct Hcases as [[-> ->] | (a & Ha & Hroot & Hfile & Hfiles & Htotal & Hcount)].
  - destruct (IH acc r1) as (acc' & r' & l & -> & Hadv' & Hl & Hf & Ht & Hc).
    exists acc', r', l. split_and!; try done; try lia.
    + by eapply advances_trans.
    + by apply Hweaken.
  - assert (Hin : accepted' a /\ at_root a = root /\ In (at_filename a) (filename :: rest))
      by (split; [done | split; [done | by left]]).
    destruct Hcount as [(-> & Hcap & Hc) | (-> & Hcap & Hc)].
    + exists acc1, r1, [a]. rewrite sum_added_cons. simpl.
      split_and!; try done; try lia. by constructor.
    + destruct (IH acc1 r1) as (acc' & r' & l & -> & Hadv' & Hl & Hf & Ht & Hc').
      exists acc', r', (a :: l). rewrite sum_added_cons. simpl.
      split_and!; try done; try lia.
      * by eapply advances_trans.
      * constructor; [done | by apply Hweaken].
      * rewrite Hf, Hfiles, <- app_assoc. done.
Qed.

Lemma for_walk_log entries acc r :
  exists acc' r' l,
    for_walk' entries acc r = (Normal, acc', r') /\ advances r r'
    /\ Forall (fun a => accepted' a
                        /\ exists filenames, In (at_root a, filenames) entries
                                             /\ In (at_filename a) filenames) l
    /\ files acc' = files acc ++ map emitted l
    /\ total_size acc' = total_size acc + sum_added l
    /\ file_count acc <= file_count acc' <= file_count acc + Z.of_nat (length l).
Proof.
  revert acc r. induction entries as [|[root filenames] rest IH]; intros acc r; simpl.
  { exists acc, r, []. simpl. rewrite app_nil_r.
    split_and!; try done; try lia. apply advances_refl. }
  destruct (for_filenames_log root filenames acc r)
    as (acc1 & r1 & l1 & Hv & Hadv1 & Hl1 & Hf1 & Ht1 & Hc1).
  rewrite Hv. clear Hv.
  destruct (IH acc1 r1) as (acc' & r' & l2 & -> & Hadv2 & Hl2 & Hf2 & Ht2 & Hc2).
  exists acc', r', (l1 ++ l2). rewrite sum_added_app, length_app, map_app.
  split_and!; try done; try lia.
  - by eapply advances_trans.
  - apply Forall_app. split.
    + eapply Forall_impl; [exact Hl1 |]. intros a (Ha & Hroot & Hin). split; [done |].
      exists filenames. split; [left; by rewrite Hroot | done].
    + eapply Forall_impl; [exact Hl2 |]. intros a (Ha & fns & Hin1 & Hin2). split; [done |].
      exists fns. split; [by right | done].
  - rewrite Hf2, Hf1, <- app_assoc. done.
Qed.


(** [scrape_directory] is its loop followed by at most one notice: the
    exception of the walk, if any, is printed and dropped. *)
Lemma scrape_directory_unfold directory r :
  exists acc r1,
    for_walk' (fst (fs_walk fs (clock r) directory)) no_totals
      (record_event (Walk directory) r) = (Normal, acc, r1)
    /\ scrape_directory' directory r =
         (Return acc,
          match snd (fs_walk fs (clock r) directory) with
          | Some e => record_notice (ErrorNotice (exn_str (IOFailure e))) r1
          | None => r1
          end).
Proof.
  unfold scrape_directory.
  destruct (fs_walk fs (clock r) directory) as [entries failure]. simpl.
  destruct (for_walk_log entries no_totals (record_event (Walk directory) r))
    as (acc & r1 & l & Hw & _).
  exists acc, r1. split; [exact Hw |].
  rewrite Hw. by destruct failure.
Qed.

Lemma listed_one_more fs' d ds a : listed fs' ds a -> listed fs' (d :: ds) a.
Proof.
  intros (t & d' & fns & Hd & H1 & H2). exists t, d', fns. split; [by right | done].
Qed.

Lemma listed_first fs' d ds a : listed fs' [d] a -> listed fs' (d :: ds) a.
Proof.
  intros (t & d' & fns & [<- | []] & H1 & H2). exists t, d, fns. split; [by left | done].
Qed.

Lemma scrape_directory_log directory r :
  exists acc r' l,
    scrape_directory' directory r = (Return acc, r')
    /\ walked (trace r') = walked (trace r) ++ [directory]
    /\ dumped (trace r') = dumped (trace r)
    /\ Forall (fun a => accepted' a /\ listed fs [directory] a) l
    /\ files acc = map emitted l
    /\ total_size acc = sum_added l
    /\ 0 <= file_count acc <= Z.of_nat (length l).
Proof.
  destruct (scrape_directory_unfold directory r) as (acc & r1 & Hw & ->).
  destruct (for_walk_log (fst (fs_walk fs (clock r) directory)) no_totals
              (record_event (Walk directory) r))
    as (acc0 & r0 & l & Hw' & Hadv & Hl & Hf & Ht & Hc).
  rewrite Hw in Hw'. injection Hw' as <- <-.
  eexists acc, _, l. split; [reflexivity |].
  assert (Hadv' : advances (record_event (Walk directory) r)
                    match snd (fs_walk fs (clock r) directory) with
                    | Some e => record_notice (ErrorNotice (exn_str (IOFailure e))) r1
                    | None => r1
                    end).
  { destruct (snd (fs_walk fs (clock r) directory)); [by apply advances_notice | done]. }
  split_and!; try done; try (simpl in *; lia).
  - rewrite (advances_walked _ _ Hadv'). simpl. by rewrite walked_app.
  - rewrite (advances_dumped _ _ Hadv'). simpl. by rewrite dumped_app, app_nil_r.
  - eapply Forall_impl; [exact Hl |]. intros a (Ha & fns & H1 & H2). split; [done |].
    exists (clock r), directory, fns. split; [by left | done].
Qed.

Lemma scrape_directories_loop_log len_dirs i directories acc r :
  exists acc' r' l scanned rest,
    scrape_directories_loop' len_dirs i directories acc r = (Return acc', r')
    /\ directories = scanned ++ rest
    /\ walked (trace r') = walked (trace r) ++ scanned
    /\ dumped (trace r') = dumped (trace r)
    /\ (rest = [] \/ max_total_size < total_size acc')
    /\ (directories <> [] -> scanned <> [])
    /\ Forall (fun a => accepted' a /\ listed fs directories a) l
    /\ files acc' = files acc ++ map emitted l
    /\ total_size acc' = total_size acc + sum_added l
    /\ file_count acc <= file_count acc' <= file_count acc + Z.of_nat (length l).
Proof.
  revert i acc r.
  induction directories as [|directory more IH]; intros i acc r; simpl.
  { exists acc, r, [], [], []. simpl. rewrite !app_nil_r.
    split_and!; try done; try lia. by left. }
  unfold mbind, M_bind, bind, PrintUtils_info.
  destruct (scrape_directory_log directory
              (record_notice (ProgressNotice (i + 1) len_dirs directory) r))
    as (found & r1 & l1 & Hs & Hw1 & Hd1 & Hl1 & Hf1 & Ht1 & Hc1).
  rewrite Hs. clear Hs. simpl in Hw1, Hd1.
  assert (Hfirst : Forall (fun a => accepted' a /\ listed fs (directory :: more) a) l1).
  { eapply Forall_impl; [exact Hl1 |]. intros a [Ha Hlist]. split; [done |].
    by apply listed_first. }
  rewrite Z.gtb_ltb.
  destruct (Z.ltb_spec max_total_size (total_size acc + total_size found)) as [Hcap | Hcap].
  - eexists _, r1, l1, [directory], more. simpl. rewrite <- Ht1.
    split_and!; try done; try (simpl; lia).
    simpl. by rewrite Hf1.
  - match goal with |- context [scrape_directories_loop _ _ _ _ _ _ _ _ ?acc1 _] =>
      destruct (IH (S i) acc1 r1)
        as (acc' & r' & l2 & scanned & rest & -> & Hds & Hw2 & Hd2 & Hstop & _ & Hl2 & Hf2 & Ht2 & Hc2)
    end.
    simpl in Hf2, Ht2, Hc2.
    exists acc', r', (l1 ++ l2), (directory :: scanned), rest.
    rewrite sum_added_app, length_app, map_app. simpl.
    split_and!; try done; try lia.
    + by rewrite Hds.
    + by rewrite Hw2, Hw1, <- app_assoc.
    + by rewrite Hd2.
    + apply Forall_app. split; [done |].
      eapply Forall_impl; [exact Hl2 |]. intros a [Ha Hlist]. split; [done |].
      by apply listed_one_more.
    + by rewrite Hf2, Hf1, <- app_assoc.
Qed.

(** The whole walk: what [scrape_directories] returns, which
    directories it walked, and where every record came from. *)
Lemma scrape_directories_log directories r :
  exists acc r' l scanned rest,
    scrape_directories' directories r = (Return acc, r')
    /\ directories = scanned ++ rest
    /\ walked (trace r') = walked (trace r) ++ scanned
    /\ dumped (trace r') = dumped (trace r)
    /\ (rest = [] \/ max_total_size < total_size acc)
    /\ (directories <> [] -> scanned <> [])
    /\ Forall (fun a => accepted' a /\ listed fs directories a) l
    /\ files acc = map emitted l
    /\ total_size acc = sum_added l
    /\ 0 <= file_count acc <= Z.of_nat (length l).
Proof.
  destruct (scrape_directories_loop_log (length directories) 0 directories no_totals r)
    as (acc & r' & l & scanned & rest & H & Hrest).
  exists acc, r', l, scanned, rest. split; [exact H |]. simpl in Hrest.
  replace (0 + sum_added l) with (sum_added l) in Hrest by lia.
  exact Hrest.
Qed.

End WalkLog.

(** ** The extension check *)

Lemma get_file_extension_without_dot filename :
  Py.contains "." filename = false -> get_file_extension filename = "".
Proof.
  intros H. unfold get_file_extension. by rewrite (split_without_sep "." filename H).
Qed.

Lemma get_file_extension_after_last_dot pre ext :
  Py.contains "." ext = false -> get_file_extension (pre +:+ "." +:+ ext) = ext.
Proof.
  intros H. unfold get_file_extension.
  change (pre +:+ "." +:+ ext) with (pre +:+ String "." ext).
  rewrite split_app_sep, (split_without_sep "." ext H).
  destruct (Py.split "." pre) as [|p ps] eqn:E; [by apply split_nonempty in E |].
  replace (1 <? length ((p :: ps) ++ [ext]))%nat with true.
  - unfold Py.last_part. by rewrite last_last.
  - symmetry. apply Nat.ltb_lt. rewrite length_app. simpl. lia.
Qed.

Lemma scrape_file_wrong_extension fs filename extensions max_size r :
  get_file_extension filename ∉ extensions ->
  scrape_file fs filename extensions max_size r = (Return None, r).
Proof.
  intros H. unfold scrape_file, confirm_extension.
  by rewrite bool_decide_eq_false_2.
Qed.

Lemma scrape_file_right_extension fs filename extensions max_size r :
  get_file_extension filename ∈ extensions ->
  exists t, trace (snd (scrape_file fs filename extensions max_size r))
            = trace r ++ Stat filename :: t.
Proof.
  intros H. unfold scrape_file, confirm_extension.
  rewrite bool_decide_eq_true_2 by done. simpl.
  unfold mbind, M_bind, bind. rewrite get_file_size_eq.
  destruct (fs_getsize fs (clock r) filename) as [e | n]; simpl.
  { by exists []. }
  destruct ((n =? 0) || (n <=? 0) || (n >? max_size)).
  { by exists []. }
  rewrite get_file_content_eq.
  destruct (fs_read fs _ filename) as [e | text]; simpl.
  { exists [Read filename]. by rewrite <- app_assoc. }
  destruct (String.eqb text "").
  { exists [Read filename]. simpl. by rewrite <- app_assoc. }
  exists [Read filename; Now]. simpl. by rewrite <- !app_assoc.
Qed.

(** The extension of the string handed to the filter is the text after
    its last dot, or the empty string when it has no dot; the filter
    moves on to the size check exactly when that text is a member of the
    extension set, compared as it stands. *)
Theorem extension_check (filename : string) (extensions : gset string) :
  (Py.contains "." filename = false -> get_file_extension filename = "")
  /\ (forall pre ext, filename = pre +:+ "." +:+ ext -> Py.contains "." ext = false ->
        get_file_extension filename = ext)
  /\ (confirm_extension filename extensions = true
      <-> get_file_extension filename ∈ extensions)
  /\ (forall fs max_size r,
        get_file_extension filename ∈ extensions
        <-> exists t, trace (snd (scrape_file fs filename extensions max_size r))
                      = trace r ++ Stat filename :: t)
  /\ (forall fs max_size r,
        get_file_extension filename ∉ extensions ->
        scrape_file fs filename extensions max_size r = (Return None, r))
  /\ confirm_extension "a.PY" {["py"]} = false.
Proof.
  split_and!.
  - apply get_file_extension_without_dot.
  - intros pre ext -> H. by apply get_file_extension_after_last_dot.
  - unfold confirm_extension. apply bool_decide_eq_true.
  - intros fs max_size r. split.
    + apply scrape_file_right_extension.
    + intros [t Ht]. destruct (decide (get_file_extension filename ∈ extensions)) as [|Hn];
        [done |].
      rewrite (scrape_file_wrong_extension fs filename extensions max_size r Hn) in Ht.
      simpl in Ht. apply (f_equal length) in Ht. rewrite length_app in Ht. simpl in Ht. lia.
  - intros fs max_size r. apply scrape_file_wrong_extension.
  - by vm_compute.
Qed.

Lemma extension_check_witness :
  get_file_extension "docs/a.tar.gz" = "gz" /\ get_file_extension "docs/Makefile" = "".
Proof.
  split.
  - apply (proj1 (proj2 (extension_check "docs/a.tar.gz" ∅)) "docs/a.tar" "gz");
      reflexivity.
  - apply (proj1 (extension_check "docs/Makefile" ∅)). reflexivity.
Defined.

(** ** From the walk to the written document *)

(** Whatever [main] writes is the triple that [scrape_directories]
    returned for the normalised arguments. *)
Lemma main_dumped fs args r doc :
  In doc (dumped (trace (snd (main fs args r)))) ->
  In doc (dumped (trace r))
  \/ exists tokens acc r1,
       comprehension remove_dot_from_extension (Py.split "," (arg_extensions args))
         = Return tokens
       /\ scrape_directories fs (list_to_set tokens) (arg_max_size args)
            (arg_max_total_size args) (ignore_list args) (directory_list args) r
          = (Return acc, r1)
       /\ doc = {| doc_files := files acc;
                   doc_total_size := total_size acc;
                   doc_file_count := file_count acc |}.
Proof.
  unfold main, mbind, M_bind, bind, lift.
  destruct (comprehension remove_dot_from_extension (Py.split "," (arg_extensions args)))
    as [tokens | e] eqn:Htok; simpl; [| by left].
  fold (directory_list args). fold (ignore_list args).
  destruct (bool_decide (directory_list args = [])); simpl; [by left |].
  destruct (bool_decide (list_to_set tokens =@{gset string} ∅)); simpl; [by left |].
  destruct (scrape_directories_log fs (list_to_set tokens) (arg_max_size args)
              (arg_max_total_size args) (ignore_list args) (directory_list args) r)
    as (acc & r1 & l & scanned & rest & Hs & _ & _ & Hd & _).
  rewrite Hs. unfold PrintUtils_success, json_dump. simpl.
  destruct (fs_write fs _ (arg_output args)); simpl.
  - rewrite Hd. by left.
  - rewrite dumped_app, Hd. simpl. rewrite in_app_iff. intros [H | [<- | []]]; [by left |].
    right. by exists tokens, acc, r1.
Qed.

(** ** The size bounds of a record *)

Lemma accepted_size_bounds fs extensions max_size ignore_dirs a :
  accepted fs extensions max_size ignore_dirs a -> 0 < size (emitted a) <= max_size.
Proof. intros (_ & _ & _ & H & _). exact H. Qed.

Lemma scrape_file_rejects_size fs filename extensions max_size r n :
  fs_getsize fs (clock r) filename = inr n ->
  n <= 0 \/ max_size < n ->
  fst (scrape_file fs filename extensions max_size r) = Return None.
Proof.
  intros Hn Hbad. unfold scrape_file.
  destruct (confirm_extension filename extensions); simpl; [| done].
  unfold mbind, M_bind, bind. rewrite get_file_size_eq, Hn.
  replace ((n =? 0) || (n <=? 0) || (n >? max_size)) with true; [done |].
  symmetry. rewrite !orb_true_iff, Z.eqb_eq, Z.leb_le, Z.gtb_ltb, Z.ltb_lt. lia.
Qed.

(** C4. With the per-file cap [max_size], every record the filter
    emits, every record of a walk and every record of a written
    document has a size above zero and at most the cap; a file whose
    size is read as zero, negative or above the cap is rejected. *)
Theorem emitted_size_bounds (fs : FileSystem) (extensions : gset string)
    (max_size max_total_size : Z) (ignore_dirs : list string) :
  (forall filename r,
     match fst (scrape_file fs filename extensions max_size r) with
     | Return (Some file) => 0 < size file <= max_size
     | Return None => True
     | Raise _ => False
     end)
  /\ (forall filename r n,
        fs_getsize fs (clock r) filename = inr n -> n <= 0 \/ max_size < n ->
        fst (scrape_file fs filename extensions max_size r) = Return None)
  /\ (forall directories r,
        exists acc r',
          scrape_directories fs extensions max_size max_total_size ignore_dirs
            directories r = (Return acc, r')
          /\ Forall (fun file => 0 < size file <= max_size) (files acc))
  /\ (forall args doc,
        In doc (dumped (trace (snd (main fs args start)))) ->
        Forall (fun file => 0 < size file <= arg_max_size args) (doc_files doc)).
Proof.
  assert (Hwalk : forall exts ms mts ign directories r,
            exists acc r',
              scrape_directories fs exts ms mts ign directories r = (Return acc, r')
              /\ Forall (fun file => 0 < size file <= ms) (files acc)).
  { intros exts ms mts ign directories r.
    destruct (scrape_directories_log fs exts ms mts ign directories r)
      as (acc & r' & l & scanned & rest & Hs & _ & _ & _ & _ & _ & Hl & Hf & _).
    exists acc, r'. split; [exact Hs |]. rewrite Hf. apply Forall_map.
    eapply Forall_impl; [exact Hl |]. intros a [Ha _]. simpl.
    by eapply accepted_size_bounds. }
  split_and!.
  - intros filename r.
    destruct (scrape_file_cases fs filename extensions max_size r)
      as [(r' & -> & _) | (file & -> & _ & _ & Hb & _)]; [done | exact Hb].
  - intros filename r n. apply scrape_file_rejects_size.
  - apply Hwalk.
  - intros args doc Hdoc. apply main_dumped in Hdoc as [[] | (tokens & acc & r1 & _ & Hs & ->)].
    simpl.
    destruct (Hwalk (list_to_set tokens) (arg_max_size args) (arg_max_total_size args)
                (ignore_list args) (directory_list args) start) as (acc' & r' & Hs' & H).
    rewrite Hs in Hs'. by injection Hs' as <- <-.
Qed.

(** ** The counter and the list *)

Lemma length_map_emitted (l : list acceptance) : length (map emitted l) = length l.
Proof. apply length_map. Qed.

(** C8. The counter never exceeds the number of records: for one file
    name the list grows by at least what the counter grows by, and not at
    all for the record that crossed the cap; so it holds for every
    per-directory walk, for the aggregate, and for the written
    document. *)
Theorem file_count_le_length (fs : FileSystem) (extensions : gset string)
    (max_size max_total_size : Z) (ignore_dirs : list string) :
  (forall root filename acc r,
     exists c acc' r',
       visit fs extensions max_size max_total_size ignore_dirs root filename acc r
         = (c, acc', r')
       /\ 0 <= file_count acc' - file_count acc
            <= Z.of_nat (length (files acc')) - Z.of_nat (length (files acc))
       /\ file_count acc' - file_count acc <= 1
       /\ (c = Break -> file_count acc' = file_count acc
                        /\ length (files acc') = S (length (files acc))))
  /\ (forall directory r,
        exists acc r',
          scrape_directory fs extensions max_size max_total_size ignore_dirs directory r
            = (Return acc, r')
          /\ file_count acc <= Z.of_nat (length (files acc)))
  /\ (forall directories r,
        exists acc r',
          scrape_directories fs extensions max_size max_total_size ignore_dirs
            directories r = (Return acc, r')
          /\ file_count acc <= Z.of_nat (length (files acc)))
  /\ (forall args doc,
        In doc (dumped (trace (snd (main fs args start)))) ->
        doc_file_count doc <= Z.of_nat (length (doc_files doc))).
Proof.
  split_and!.
  - intros root filename acc r.
    destruct (visit_cases fs extensions max_size max_total_size ignore_dirs
                root filename acc r) as (c & acc' & r' & Hv & _ & Hcases).
    exists c, acc', r'. split; [exact Hv |].
    destruct Hcases as [[-> ->] | (a & _ & _ & _ & Hf & _ & Hc)].
    + split_and!; try lia. done.
    + rewrite Hf, length_app. simpl.
      destruct Hc as [(-> & _ & Hc) | (-> & _ & Hc)]; rewrite Hc;
        split_and!; try lia; try done.
  - intros directory r.
    destruct (scrape_directory_log fs extensions max_size max_total_size ignore_dirs
                directory r) as (acc & r' & l & Hs & _ & _ & _ & Hf & _ & Hc).
    exists acc, r'. split; [exact Hs |]. rewrite Hf, length_map. lia.
  - intros directories r.
    destruct (scrape_directories_log fs extensions max_size max_total_size ignore_dirs
                directories r) as (acc & r' & l & scanned & rest & Hs & _ & _ & _ & _ & _ & _ & Hf & _ & Hc).
    exists acc, r'. split; [exact Hs |]. rewrite Hf, length_map. lia.
  - intros args doc Hdoc.
    apply main_dumped in Hdoc as [[] | (tokens & acc & r1 & _ & Hs & ->)]. simpl.
    destruct (scrape_directories_log fs (list_to_set tokens) (arg_max_size args)
                (arg_max_total_size args) (ignore_list args) (directory_list args) start)
      as (acc' & r' & l & scanned & rest & Hs' & _ & _ & _ & _ & _ & _ & Hf & _ & Hc).
    rewrite Hs in Hs'. injection Hs' as <- <-. rewrite Hf, length_map. lia.
Qed.

(** ** The ignore list *)

Lemma file_in_ignore_dirs_true filename ignore_dirs :
  file_in_ignore_dirs filename ignore_dirs = true
  <-> exists ignore_dir pre post,
        In ignore_dir ignore_dirs /\ filename = pre +:+ ignore_dir +:+ post.
Proof.
  induction ignore_dirs as [|d rest IH]; simpl.
  - split; [done | by intros (? & ? & ? & [] & _)].
  - destruct (Py.contains d filename) eqn:Hd.
    + split; [intros _ | done].
      apply contains_substring in Hd as (pre & post & ->). exists d, pre, post. by split; [left |].
    + rewrite IH. split.
      * intros (x & pre & post & Hin & ->). exists x, pre, post. by split; [right |].
      * intros (x & pre & post & [<- | Hin] & ->).
        -- assert (Py.contains d (pre +:+ d +:+ post) = true)
             by (apply contains_substring; by exists pre, post).
           congruence.
        -- by exists x, pre, post.
Qed.

Lemma file_in_ignore_dirs_false filename ignore_dirs :
  file_in_ignore_dirs filename ignore_dirs = false ->
  forall ignore_dir pre post,
    In ignore_dir ignore_dirs -> filename <> pre +:+ ignore_dir +:+ post.
Proof.
  intros Hf d pre post Hin Heq.
  assert (file_in_ignore_dirs filename ignore_dirs = true)
    by (apply file_in_ignore_dirs_true; by exists d, pre, post).
  congruence.
Qed.

Lemma accepted_clear_of fs extensions max_size ignore_dirs directories a :
  accepted fs extensions max_size ignore_dirs a -> listed fs directories a ->
  clear_of fs directories ignore_dirs (emitted a).
Proof.
  intros (Hign & _ & _ & _ & _ & _ & Hname & Hdir & _) (t & d & fns & Hd & H1 & H2).
  exists (at_root a), fns, (at_filename a), t, d.
  split_and!; try done. by apply file_in_ignore_dirs_false.
Qed.

(** No record comes from a candidate path, the walked folder joined
    with the file name, that holds an entry of the ignore list as a
    substring; the test is containment in the whole path, so the entry
    [src] also drops [src2/file.py]. *)
Theorem ignored_paths_not_emitted (fs : FileSystem) (extensions : gset string)
    (max_size max_total_size : Z) (ignore_dirs : list string) :
  (forall filename,
     file_in_ignore_dirs filename ignore_dirs = true
     <-> exists ignore_dir pre post,
           In ignore_dir ignore_dirs /\ filename = pre +:+ ignore_dir +:+ post)
  /\ (forall directories r,
        exists acc r',
          scrape_directories fs extensions max_size max_total_size ignore_dirs
            directories r = (Return acc, r')
          /\ Forall (clear_of fs directories ignore_dirs) (files acc))
  /\ (forall args doc,
        In doc (dumped (trace (snd (main fs args start)))) ->
        Forall (clear_of fs (directory_list args) (ignore_list args)) (doc_files doc))
  /\ file_in_ignore_dirs "src2/file.py" ["src"] = true.
Proof.
  assert (Hwalk : forall exts ms mts ign directories r,
            exists acc r',
              scrape_directories fs exts ms mts ign directories r = (Return acc, r')
              /\ Forall (clear_of fs directories ign) (files acc)).
  { intros exts ms mts ign directories r.
    destruct (scrape_directories_log fs exts ms mts ign directories r)
      as (acc & r' & l & scanned & rest & Hs & _ & _ & _ & _ & _ & Hl & Hf & _).
    exists acc, r'. split; [exact Hs |]. rewrite Hf. apply Forall_map.
    eapply Forall_impl; [exact Hl |]. intros a [Ha Hlisted]. simpl.
    by eapply accepted_clear_of. }
  split_and!.
  - intros filename. apply file_in_ignore_dirs_true.
  - apply Hwalk.
  - intros args doc Hdoc.
    apply main_dumped in Hdoc as [[] | (tokens & acc & r1 & _ & Hs & ->)]. simpl.
    destruct (Hwalk (list_to_set tokens) (arg_max_size args) (arg_max_total_size args)
                (ignore_list args) (directory_list args) start) as (acc' & r' & Hs' & H).
    rewrite Hs in Hs'. by injection Hs' as <- <-.
  - reflexivity.
Qed.

(** ** The total and the sizes *)

Lemma agreeing_added fs extensions max_size ignore_dirs l :
  restat_agrees fs ->
  Forall (fun a => accepted fs extensions max_size ignore_dirs a) l ->
  sum_added l = sum_sizes (map emitted l).
Proof.
  intros Hagree. induction 1 as [|a l Ha _ IH]; [done |].
  rewrite sum_added_cons. simpl. unfold sum_sizes in *. simpl. rewrite <- IH.
  destruct Ha as (_ & _ & Hsize & _ & _ & _ & _ & _ & ->).
  unfold size_or_zero. by rewrite (Hagree _ _ _ Hsize).
Qed.

Lemma without_listed {P : acceptance -> Prop} {Q : acceptance -> Prop} l :
  Forall (fun a => P a /\ Q a) l -> Forall P l.
Proof. intros H. eapply Forall_impl; [exact H |]. by intros a [Ha _]. Qed.

(** When at every clock the second size answer for every file is the
    one the filter got, the total of a per-directory walk, of the
    aggregate and of the written document is the sum of the [size]
    fields of its records. *)
Theorem total_size_is_sum_when_restat_agrees (fs : FileSystem)
    (extensions : gset string) (max_size max_total_size : Z)
    (ignore_dirs : list string) (Hagree : restat_agrees fs) :
  (forall directory r,
     exists acc r',
       scrape_directory fs extensions max_size max_total_size ignore_dirs directory r
         = (Return acc, r')
       /\ total_size acc = sum_sizes (files acc))
  /\ (forall directories r,
        exists acc r',
          scrape_directories fs extensions max_size max_total_size ignore_dirs
            directories r = (Return acc, r')
          /\ total_size acc = sum_sizes (files acc))
  /\ (forall args doc,
        In doc (dumped (trace (snd (main fs args start)))) ->
        doc_total_size doc = sum_sizes (doc_files doc)).
Proof.
  assert (Hwalk : forall exts ms mts ign directories r,
            exists acc r',
              scrape_directories fs exts ms mts ign directories r = (Return acc, r')
              /\ total_size acc = sum_sizes (files acc)).
  { intros exts ms mts ign directories r.
    destruct (scrape_directories_log fs exts ms mts ign directories r)
      as (acc & r' & l & scanned & rest & Hs & _ & _ & _ & _ & _ & Hl & Hf & Ht & _).
    exists acc, r'. split; [exact Hs |]. rewrite Ht, Hf.
    eapply agreeing_added; [exact Hagree | exact (without_listed l Hl)]. }
  split_and!.
  - intros directory r.
    destruct (scrape_directory_log fs extensions max_size max_total_size ignore_dirs
                directory r) as (acc & r' & l & Hs & _ & _ & Hl & Hf & Ht & _).
    exists acc, r'. split; [exact Hs |]. rewrite Ht, Hf.
    eapply agreeing_added; [exact Hagree | exact (without_listed l Hl)].
  - apply Hwalk.
  - intros args doc Hdoc.
    apply main_dumped in Hdoc as [[] | (tokens & acc & r1 & _ & Hs & ->)]. simpl.
    destruct (Hwalk (list_to_set tokens) (arg_max_size args) (arg_max_total_size args)
                (ignore_list args) (directory_list args) start) as (acc' & r' & Hs' & H).
    rewrite Hs in Hs'. by injection Hs' as <- <-.
Qed.

(** ** Duplicate paths *)

Lemma remove_duplicate_paths_loop_snoc paths p seen filtered :
  remove_duplicate_paths_loop (paths ++ [p]) seen filtered =
  if bool_decide (OsPath.normpath p ∈ seen ∪ list_to_set (map OsPath.normpath paths))
  then remove_duplicate_paths_loop paths seen filtered
  else remove_duplicate_paths_loop paths seen filtered ++ [p].
Proof.
  revert seen filtered. induction paths as [|q paths IH]; intros seen filtered; simpl.
  - replace (seen ∪ ∅) with seen by set_solver.
    by destruct (bool_decide (OsPath.normpath p ∈ seen)).
  - destruct (bool_decide (OsPath.normpath q ∈ seen)) eqn:Hq.
    + apply bool_decide_eq_true in Hq. rewrite IH.
      replace (seen ∪ ({[OsPath.normpath q]} ∪ list_to_set (map OsPath.normpath paths)))
        with (seen ∪ list_to_set (map OsPath.normpath paths)) by set_solver.
      done.
    + rewrite IH.
      replace (seen ∪ ({[OsPath.normpath q]} ∪ list_to_set (map OsPath.normpath paths)))
        with ({[OsPath.normpath q]} ∪ seen ∪ list_to_set (map OsPath.normpath paths))
        by set_solver.
      done.
Qed.

Lemma remove_duplicate_paths_snoc paths p :
  remove_duplicate_paths (paths ++ [p]) =
  if bool_decide (OsPath.normpath p ∈ map OsPath.normpath paths)
  then remove_duplicate_paths paths
  else remove_duplicate_paths paths ++ [p].
Proof.
  unfold remove_duplicate_paths. rewrite remove_duplicate_paths_loop_snoc.
  apply (f_equal (fun b : bool => if b then _ else _)).
  apply bool_decide_ext. set_solver.
Qed.

Lemma remove_duplicate_paths_sublist paths :
  sublist (remove_duplicate_paths paths) paths.
Proof.
  induction paths as [|p paths IH] using rev_ind; [done |].
  rewrite remove_duplicate_paths_snoc. case_bool_decide.
  - by apply sublist_inserts_r.
  - by apply sublist_app.
Qed.

Lemma remove_duplicate_paths_covers paths :
  Forall (fun p => OsPath.normpath p ∈ map OsPath.normpath (remove_duplicate_paths paths))
    paths.
Proof.
  induction paths as [|p paths IH] using rev_ind; [done |].
  rewrite remove_duplicate_paths_snoc. apply Forall_app. case_bool_decide as Hp.
  - split; [done |]. constructor; [| done].
    apply list_elem_of_fmap in Hp as (q & Hq & Hin).
    rewrite Forall_forall in IH. rewrite Hq. by apply IH.
  - split.
    + eapply Forall_impl; [exact IH |]. intros q Hq. rewrite map_app. set_solver.
    + constructor; [| done]. rewrite map_app. set_solver.
Qed.

Lemma remove_duplicate_paths_NoDup paths :
  NoDup (map OsPath.normpath (remove_duplicate_paths paths)).
Proof.
  induction paths as [|p paths IH] using rev_ind; [constructor |].
  rewrite remove_duplicate_paths_snoc. case_bool_decide as Hp; [done |].
  rewrite map_app. apply NoDup_app. split; [done |]. split.
  - intros x Hx Hx'. apply list_elem_of_singleton in Hx' as ->. apply Hp.
    apply list_elem_of_fmap in Hx as (q & -> & Hq). apply list_elem_of_fmap.
    exists q. split; [done |].
    eapply elem_of_sublist; [exact Hq | apply remove_duplicate_paths_sublist].
  - apply NoDup_singleton.
Qed.

Lemma remove_duplicate_paths_nonempty paths :
  paths <> [] -> remove_duplicate_paths paths <> [].
Proof.
  destruct paths as [|p paths]; [done |]. intros _ Hnil.
  pose proof (remove_duplicate_paths_covers (p :: paths)) as H.
  rewrite Hnil in H. inversion H as [|? ? Hp _]. simpl in Hp. by apply elem_of_nil in Hp.
Qed.

(** ** Which directories are walked *)

Lemma comprehension_length {A B} (f : A -> result B) xs ys :
  comprehension f xs = Return ys -> length ys = length xs.
Proof.
  revert ys. induction xs as [|x xs IH]; intros ys; simpl.
  - by intros [= <-].
  - destruct (f x); [| done]. destruct (comprehension f xs); [| done].
    intros [= <-]. simpl. f_equal. by apply IH.
Qed.

Lemma comprehension_raises {A B} (f : A -> result B) xs x e :
  In x xs -> f x = Raise e -> (forall y e', f y = Raise e' -> e' = e) ->
  comprehension f xs = Raise e.
Proof.
  intros Hin Hx Hsame. induction xs as [|y xs IH]; [done |]. simpl.
  destruct (f y) as [b | e'] eqn:Hy.
  - destruct Hin as [-> | Hin]; [congruence |]. by rewrite IH.
  - by rewrite (Hsame _ _ Hy).
Qed.

Lemma extension_tokens_nonempty s tokens :
  comprehension remove_dot_from_extension (Py.split "," s) = Return tokens ->
  list_to_set tokens ≠@{gset string} ∅.
Proof.
  intros H. apply comprehension_length in H.
  destruct tokens as [|x tokens].
  - destruct (Py.split "," s) eqn:E; [by apply split_nonempty in E | done].
  - simpl. set_solver.
Qed.

(** When the extensions parse, [main] walks a non-empty prefix of its
    directory list and nothing else. *)
Lemma main_walked fs args tokens :
  comprehension remove_dot_from_extension (Py.split "," (arg_extensions args))
    = Return tokens ->
  exists scanned rest,
    directory_list args = scanned ++ rest /\ scanned <> []
    /\ walked (trace (snd (main fs args start))) = scanned.
Proof.
  intros Htok. unfold main, mbind, M_bind, bind, lift. rewrite Htok. simpl.
  fold (directory_list args). fold (ignore_list args).
  assert (Hdirs : directory_list args <> []).
  { apply remove_duplicate_paths_nonempty, split_nonempty. }
  rewrite bool_decide_eq_false_2 by done.
  rewrite bool_decide_eq_false_2 by (by eapply extension_tokens_nonempty).
  destruct (scrape_directories_log fs (list_to_set tokens) (arg_max_size args)
              (arg_max_total_size args) (ignore_list args) (directory_list args) start)
    as (acc & r1 & l & scanned & rest & Hs & Hds & Hw & _ & _ & Hne & _).
  rewrite Hs. exists scanned, rest. split; [done |]. split; [by apply Hne |].
  unfold PrintUtils_success, json_dump. simpl.
  destruct (fs_write fs _ (arg_output args)); simpl; [done |].
  rewrite walked_app. simpl. by rewrite app_nil_r.
Qed.

(** C7. [remove_duplicate_paths] keeps a path exactly when no earlier
    path has the same normal form: the kept paths are the strings as
    given, in their order, their normal forms differ pairwise, and every
    path given has its normal form among them.  For [a] and [./a] only
    [a] stays and it is walked once. *)
Theorem remove_duplicate_paths_keeps_first_occurrences (paths : list string) :
  remove_duplicate_paths [] = []
  /\ (forall p,
        remove_duplicate_paths (paths ++ [p]) =
        if bool_decide (OsPath.normpath p ∈ map OsPath.normpath paths)
        then remove_duplicate_paths paths
        else remove_duplicate_paths paths ++ [p])
  /\ sublist (remove_duplicate_paths paths) paths
  /\ NoDup (map OsPath.normpath (remove_duplicate_paths paths))
  /\ Forall (fun p => OsPath.normpath p
                        ∈ map OsPath.normpath (remove_duplicate_paths paths)) paths
  /\ remove_duplicate_paths ["a"; "./a"] = ["a"]
  /\ (forall fs extensions max_size max_total_size ignore_dirs r,
        walked (trace (snd (scrape_directories fs extensions max_size max_total_size
                              ignore_dirs (remove_duplicate_paths ["a"; "./a"]) r)))
        = walked (trace r) ++ ["a"])
  /\ (forall fs args tokens,
        arg_dirs args = "a,./a" ->
        comprehension remove_dot_from_extension (Py.split "," (arg_extensions args))
          = Return tokens ->
        walked (trace (snd (main fs args start))) = ["a"]).
Proof.
  assert (Hpair : remove_duplicate_paths ["a"; "./a"] = ["a"]) by by vm_compute.
  split_and!.
  - done.
  - apply remove_duplicate_paths_snoc.
  - apply remove_duplicate_paths_sublist.
  - apply remove_duplicate_paths_NoDup.
  - apply remove_duplicate_paths_covers.
  - exact Hpair.
  - intros fs extensions max_size max_total_size ignore_dirs r. rewrite Hpair.
    destruct (scrape_directories_log fs extensions max_size max_total_size ignore_dirs
                ["a"] r)
      as (acc & r1 & l & scanned & rest & -> & Hds & Hw & _ & _ & Hne & _).
    simpl. rewrite Hw. f_equal.
    destruct scanned as [|d [|d' scanned]]; [by destruct Hne | | done].
    simpl in Hds. by injection Hds as <- _.
  - intros fs args tokens Hdirs Htok.
    destruct (main_walked fs args tokens Htok) as (scanned & rest & Hds & Hne & ->).
    unfold directory_list in Hds. rewrite Hdirs in Hds.
    change (Py.split "," "a,./a") with ["a"; "./a"] in Hds. rewrite Hpair in Hds.
    destruct scanned as [|d [|d' scanned]]; [done | | done].
    simpl in Hds. by injection Hds as <- _.
Qed.

(** ** The empty extension token *)

Lemma split_trailing_sep sep s : In "" (Py.split sep (s +:+ String sep "")).
Proof.
  rewrite split_app_sep. apply in_or_app. right. simpl. by left.
Qed.

(** C10. [remove_dot_from_extension] reads the first character of its
    argument unguarded and raises on the empty string; an empty or
    comma-ended [--extensions] value yields such a token, and [main] then
    raises before it prints or checks anything, so the check for an empty
    extension set is not reached. *)
Theorem empty_extension_token_raises (fs : FileSystem) (args : Args) (r : Run)
    (Hempty : In "" (Py.split "," (arg_extensions args))) :
  remove_dot_from_extension "" = Raise (IndexError "string index out of range")
  /\ In "" (Py.split "," "")
  /\ (forall s, In "" (Py.split "," (s +:+ ",")))
  /\ main fs args r = (Raise (IndexError "string index out of range"), r).
Proof.
  split_and!.
  - done.
  - by left.
  - intros s. apply split_trailing_sep.
  - unfold main, mbind, M_bind, bind, lift.
    rewrite (comprehension_raises remove_dot_from_extension _ ""
               (IndexError "string index out of range") Hempty); [done | done |].
    intros [|c y] e'; simpl; [by intros [= <-] |]. by destruct (Ascii.eqb c ".").
Qed.

(** ** Concrete file systems *)

(** C2. On [docs/] with the default, empty [--ignore-dirs] value the
    program writes no record at all: the empty value becomes the ignore
    entry [.], which every path with a dot holds.  Called with an empty
    ignore list, the walk gives what the scenario expects. *)
Theorem default_ignore_dirs_drop_every_dotted_path :
  ignore_list docs_args = ["."]
  /\ dumped (trace (snd (main docs_fs docs_args start)))
     = [{| doc_files := []; doc_total_size := 0; doc_file_count := 0 |}]
  /\ exists acc r',
       scrape_directories docs_fs {["py"]} 1000 1000 [] ["docs/"] start = (Return acc, r')
       /\ map (fun f => (directory f, name f, size f)) (files acc)
          = [("docs", "a.py", 50); ("docs/sub", "c.py", 20)]
       /\ total_size acc = 70 /\ file_count acc = 2.
Proof.
  split; [by vm_compute |]. split; [by vm_compute |].
  eexists _, _. split; [by vm_compute |]. by vm_compute.
Qed.

(** C1. In [d/] with the cap at 50 bytes, [a.py] crosses the cap and
    [b.py] next to it is skipped, but the walk goes on into [d/sub] and
    takes [c.py] as well: the [break] ends the loop over one folder's
    file names only. *)
Theorem cutoff_leaves_only_the_inner_loop :
  exists acc r',
    scrape_directory nested_fs {["py"]} 1000 50 [] "d" start = (Return acc, r')
    /\ map (fun f => (directory f, name f, size f)) (files acc)
       = [("d", "a.py", 60); ("d/sub", "c.py", 60)]
    /\ total_size acc = 120
    /\ file_count acc = 0
    /\ trace r' = [Walk "d"; Stat "d/a.py"; Read "d/a.py"; Now; Stat "d/a.py";
                   Stat "d/sub/c.py"; Read "d/sub/c.py"; Now; Stat "d/sub/c.py"].
Proof.
  eexists _, _. split; [by vm_compute |]. by vm_compute.
Qed.

(** C3, as stated, fails: the file grows between the filter's question
    and the walk's, and the total is 7 while the only record says 5. *)
Lemma total_size_differs_from_sum_of_sizes :
  exists acc r',
    scrape_directories growing_fs {["py"]} 1000 1000 [] ["d"] start = (Return acc, r')
    /\ map size (files acc) = [5]
    /\ total_size acc = 7
    /\ total_size acc <> sum_sizes (files acc).
Proof.
  eexists _, _. split; [by vm_compute |]. by vm_compute.
Qed.

(** ** Errors of the file system *)

Lemma scrape_file_stat_failure fs filename extensions max_size r e :
  get_file_extension filename ∈ extensions ->
  fs_getsize fs (clock r) filename = inl e ->
  scrape_file fs filename extensions max_size r =
  (Return None,
   record_notice (ErrorNotice (exn_str (IOFailure e))) (record_event (Stat filename) r)).
Proof.
  intros Hext He. unfold scrape_file, confirm_extension.
  rewrite bool_decide_eq_true_2 by done. simpl.
  unfold mbind, M_bind, bind. by rewrite get_file_size_eq, He.
Qed.

Lemma scrape_file_read_failure fs filename extensions max_size r n e :
  get_file_extension filename ∈ extensions ->
  fs_getsize fs (clock r) filename = inr n -> 0 < n <= max_size ->
  fs_read fs (S (clock r)) filename = inl e ->
  scrape_file fs filename extensions max_size r =
  (Return None,
   record_notice (ErrorNotice (exn_str (IOFailure e)))
     (record_event (Read filename) (record_event (Stat filename) r))).
Proof.
  intros Hext Hn Hb He. unfold scrape_file, confirm_extension.
  rewrite bool_decide_eq_true_2 by done. simpl.
  unfold mbind, M_bind, bind. rewrite get_file_size_eq, Hn.
  replace ((n =? 0) || (n <=? 0) || (n >? max_size)) with false.
  - by rewrite get_file_content_eq, clock_event, He.
  - symmetry. rewrite !orb_false_iff, Z.eqb_neq, Z.leb_gt, Z.gtb_ltb, Z.ltb_ge. lia.
Qed.

(** No error of the file system leaves the filter or the walk.  A
    failed size call counts as 0 and a failed read as no content, each
    with a notice, and the filter then rejects the file; the walk of a
    directory that ends in an error returns what its loop had gathered
    from the entries listed before, again with a notice; and the walk
    over all directories returns as well. *)
Theorem io_errors_do_not_escape (fs : FileSystem) (extensions : gset string)
    (max_size max_total_size : Z) (ignore_dirs : list string) :
  (forall filename r,
     exists found r', scrape_file fs filename extensions max_size r = (Return found, r'))
  /\ (forall filename r,
        get_file_size fs filename r =
        match fs_getsize fs (clock r) filename with
        | inr n => (Return n, record_event (Stat filename) r)
        | inl e => (Return 0, record_notice (ErrorNotice (exn_str (IOFailure e)))
                                (record_event (Stat filename) r))
        end)
  /\ (forall filename r,
        get_file_content fs filename r =
        match fs_read fs (clock r) filename with
        | inr text => (Return (Some text), record_event (Read filename) r)
        | inl e => (Return None, record_notice (ErrorNotice (exn_str (IOFailure e)))
                                   (record_event (Read filename) r))
        end)
  /\ (forall filename r e,
        get_file_extension filename ∈ extensions ->
        fs_getsize fs (clock r) filename = inl e ->
        scrape_file fs filename extensions max_size r =
        (Return None,
         record_notice (ErrorNotice (exn_str (IOFailure e)))
           (record_event (Stat filename) r)))
  /\ (forall filename r n e,
        get_file_extension filename ∈ extensions ->
        fs_getsize fs (clock r) filename = inr n -> 0 < n <= max_size ->
        fs_read fs (S (clock r)) filename = inl e ->
        scrape_file fs filename extensions max_size r =
        (Return None,
         record_notice (ErrorNotice (exn_str (IOFailure e)))
           (record_event (Read filename) (record_event (Stat filename) r))))
  /\ (forall directory r,
        exists acc r1,
          for_walk fs extensions max_size max_total_size ignore_dirs
            (fst (fs_walk fs (clock r) directory)) no_totals
            (record_event (Walk directory) r) = (Normal, acc, r1)
          /\ scrape_directory fs extensions max_size max_total_size ignore_dirs
               directory r =
             (Return acc,
              match snd (fs_walk fs (clock r) directory) with
              | Some e => record_notice (ErrorNotice (exn_str (IOFailure e))) r1
              | None => r1
              end))
  /\ (forall directories r,
        exists acc r',
          scrape_directories fs extensions max_size max_total_size ignore_dirs
            directories r = (Return acc, r')).
Proof.
  split_and!.
  - intros filename r.
    destruct (scrape_file_cases fs filename extensions max_size r)
      as [(r' & -> & _) | (file & -> & _)]; by eexists _, _.
  - apply get_file_size_eq.
  - apply get_file_content_eq.
  - intros filename r e. apply scrape_file_stat_failure.
  - intros filename r n e. apply scrape_file_read_failure.
  - apply scrape_directory_unfold.
  - intros directories r.
    destruct (scrape_directories_log fs extensions max_size max_total_size ignore_dirs
                directories r) as (acc & r' & l & scanned & rest & Hs & _).
    by exists acc, r'.
Qed.

(** ** The theorems at concrete inputs *)

Lemma io_errors_do_not_escape_witness :
  scrape_file vanishing_fs "d/b.py" {["py"]} 1000 start =
  (Return None,
   record_notice (ErrorNotice "No such file or directory")
     (record_event (Stat "d/b.py") start)).
Proof.
  apply (proj1 (proj2 (proj2 (proj2
           (io_errors_do_not_escape vanishing_fs {["py"]} 1000 1000 []))))
           "d/b.py" start (OSError "No such file or directory")).
  - by vm_compute.
  - reflexivity.
Defined.

Lemma emitted_size_bounds_witness :
  fst (scrape_file docs_fs "docs/a.py" {["py"]} 40 start) = Return None.
Proof.
  apply (proj1 (proj2 (emitted_size_bounds docs_fs {["py"]} 40 1000 []))
           "docs/a.py" start 50).
  - reflexivity.
  - right. lia.
Defined.

Lemma docs_document_without_sub_dumped :
  In docs_document_without_sub
    (dumped (trace (snd (main docs_fs docs_args_without_sub start)))).
Proof. vm_compute. left. reflexivity. Defined.

Lemma file_count_le_length_witness :
  doc_file_count docs_document_without_sub
  <= Z.of_nat (length (doc_files docs_document_without_sub)).
Proof.
  apply (proj2 (proj2 (proj2 (file_count_le_length docs_fs {["py"]} 1000 1000 [])))
           docs_args_without_sub docs_document_without_sub).
  exact docs_document_without_sub_dumped.
Defined.

Lemma ignored_paths_not_emitted_witness :
  Forall (clear_of docs_fs ["docs/"] ["sub"]) (doc_files docs_document_without_sub).
Proof.
  apply (proj1 (proj2 (proj2 (ignored_paths_not_emitted docs_fs {["py"]} 1000 1000 [])))
           docs_args_without_sub docs_document_without_sub).
  exact docs_document_without_sub_dumped.
Defined.

Lemma docs_fs_restat_agrees : restat_agrees docs_fs.
Proof. intros t filename n H. exact H. Defined.

Lemma total_size_is_sum_when_restat_agrees_witness :
  exists acc r',
    scrape_directories docs_fs {["py"]} 1000 1000 [] ["docs/"] start = (Return acc, r')
    /\ total_size acc = sum_sizes (files acc).
Proof.
  apply (proj1 (proj2 (total_size_is_sum_when_restat_agrees docs_fs {["py"]} 1000 1000 []
                         docs_fs_restat_agrees))).
Defined.

Lemma remove_duplicate_paths_keeps_first_occurrences_witness :
  walked (trace (snd (main docs_fs twice_a_args start))) = ["a"].
Proof.
  apply (proj2 (proj2 (proj2 (proj2 (proj2 (proj2 (proj2
           (remove_duplicate_paths_keeps_first_occurrences [])))))))
           docs_fs twice_a_args ["py"; "txt"]); reflexivity.
Defined.

Lemma empty_extension_token_raises_witness :
  In "" (Py.split "," (arg_extensions trailing_comma_args))
  /\ main docs_fs trailing_comma_args start
     = (Raise (IndexError "string index out of range"), start).
Proof.
  assert (H : In "" (Py.split "," (arg_extensions trailing_comma_args)))
    by (simpl; right; left; reflexivity).
  split; [exact H |].
  apply (empty_extension_token_raises docs_fs trailing_comma_args start H).
Defined.

(** ** Path functions at concrete inputs *)

Example normpath_examples :
  OsPath.normpath "./a" = "a" /\ OsPath.normpath "" = "."
  /\ OsPath.normpath "a//b/../c/" = "a/c" /\ OsPath.normpath "../x/./.." = ".."
  /\ OsPath.normpath "//a/../.." = "//" /\ OsPath.normpath "node_modules/" = "node_modules".
Proof. repeat split; reflexivity. Qed.

Example join_examples :
  OsPath.join "docs" "a.py" = "docs/a.py" /\ OsPath.join "docs/" "a.py" = "docs/a.py"
  /\ OsPath.join "" "a.py" = "a.py".
Proof. repeat split; reflexivity. Qed.

Example dirname_basename_examples :
  OsPath.dirname "docs/sub/c.py" = "docs/sub" /\ OsPath.basename "docs/sub/c.py" = "c.py"
  /\ OsPath.dirname "a//x.py" = "a" /\ OsPath.dirname "/x.py" = "/"
  /\ OsPath.dirname "x.py" = "".
Proof. repeat split; reflexivity. Qed.

Example get_file_extension_examples :
  get_file_extension "docs/a.tar.gz" = "gz" /\ get_file_extension "Makefile" = ""
  /\ get_file_extension "notes." = "" /\ get_file_extension "my.dir/README" = "dir/README".
Proof. repeat split; reflexivity. Qed.

(** Every failure at once: the size of [a.py] cannot be read the second
    time, [b.py] not at all, and the walk itself fails at its end; the
    walk still returns, with three notices. *)
Example walk_survives_every_failure :
  exists acc r',
    scrape_directory vanishing_fs {["py"]} 1000 1000 [] "d" start = (Return acc, r')
    /\ map name (files acc) = ["a.py"]
    /\ total_size acc = 0
    /\ file_count acc = 1
    /\ console r' = [ErrorNotice "No such file or directory";
                     ErrorNotice "No such file or directory";
                     ErrorNotice "Input/output error"].
Proof.
  eexists _, _. split; [by vm_compute |]. by vm_compute.
Qed.

(** * Further properties *)

(** ** More on extensions and names *)

Lemma string_app_assoc (a b c : string) : (a +:+ b) +:+ c = a +:+ (b +:+ c).
Proof.
  induction a as [|x a IH]; [reflexivity |].
  change (String x ((a +:+ b) +:+ c) = String x (a +:+ (b +:+ c))). by rewrite IH.
Qed.

Lemma string_app_nil_r (a : string) : a +:+ "" = a.
Proof.
  induction a as [|x a IH]; [reflexivity |].
  change (String x (a +:+ "") = String x a). by rewrite IH.
Qed.

Lemma contains_char_cons sep c s :
  Py.contains (String sep "") (String c s)
  = Ascii.eqb sep c || Py.contains (String sep "") s.
Proof. simpl. by rewrite andb_true_r. Qed.

Lemma cut_at_last_sep sep s :
  Py.contains (String sep "") s = true ->
  exists pre ext,
    s = pre +:+ String sep ext /\ Py.contains (String sep "") ext = false.
Proof.
  induction s as [|c s IH]; [done |].
  rewrite contains_char_cons. intros H.
  destruct (Py.contains (String sep "") s) eqn:Hs.
  - destruct (IH eq_refl) as (pre & ext & -> & Hext). by exists (String c pre), ext.
  - rewrite orb_false_r in H. apply Ascii.eqb_eq in H as <-. by exists "", s.
Qed.

(** The extension is "what follows the last dot": the two cases of
    [get_file_extension] in one statement. *)
Lemma get_file_extension_cases filename :
  (Py.contains "." filename = false /\ get_file_extension filename = "")
  \/ (exists pre,
        filename = pre +:+ "." +:+ get_file_extension filename
        /\ Py.contains "." (get_file_extension filename) = false).
Proof.
  destruct (Py.contains "." filename) eqn:H.
  - right. destruct (cut_at_last_sep "." filename H) as (pre & ext & -> & Hext).
    exists pre. change (pre +:+ String "." ext) with (pre +:+ "." +:+ ext).
    by rewrite (get_file_extension_after_last_dot pre ext Hext).
  - left. split; [done |]. by apply get_file_extension_without_dot.
Qed.

Lemma contains_app_r needle pre s :
  Py.contains needle s = true -> Py.contains needle (pre +:+ s) = true.
Proof.
  intros H. apply contains_substring in H as (a & b & ->).
  apply contains_substring. exists (pre +:+ a), b. by rewrite string_app_assoc.
Qed.

Lemma get_file_extension_empty_iff filename :
  get_file_extension filename = ""
  <-> Py.contains "." filename = false \/ exists pre, filename = pre +:+ ".".
Proof.
  destruct (get_file_extension_cases filename) as [[Hno He] | (pre & Hpre & Hext)].
  - split; [by left | done].
  - split.
    + intros He. right. exists pre. by rewrite He in Hpre.
    + intros [Hno | (pre' & Hdot)].
      * assert (Py.contains "." filename = true); [| congruence].
        rewrite Hpre. apply contains_substring.
        by exists pre, (get_file_extension filename).
      * rewrite Hdot. by apply (get_file_extension_after_last_dot pre' "").
Qed.

(** X1. The extension that [get_file_extension] returns holds no dot
    and ends the name it was taken from; it is empty exactly when the
    name has no dot or ends with one.  So an extension asked for with a
    dot inside, such as [tar.gz], matches no file. *)
Theorem extension_has_no_dot (filename : string) :
  Py.contains "." (get_file_extension filename) = false
  /\ (exists pre, filename = pre +:+ get_file_extension filename)
  /\ (get_file_extension filename = ""
      <-> Py.contains "." filename = false \/ exists pre, filename = pre +:+ ".")
  /\ (forall extensions : gset string,
        (forall e, e ∈ extensions -> Py.contains "." e = true) ->
        confirm_extension filename extensions = false).
Proof.
  split_and!.
  - by destruct (get_file_extension_cases filename) as [[_ ->] | (pre & _ & H)].
  - destruct (get_file_extension_cases filename) as [[_ ->] | (pre & Hpre & _)].
    + exists filename. by rewrite string_app_nil_r.
    + exists (pre +:+ "."). by rewrite string_app_assoc.
  - apply get_file_extension_empty_iff.
  - intros extensions Hall. unfold confirm_extension.
    apply bool_decide_eq_false. intros Hin. apply Hall in Hin.
    destruct (get_file_extension_cases filename) as [[_ He] | (pre & _ & H)];
      [by rewrite He in Hin | congruence].
Qed.

Lemma extension_has_no_dot_witness :
  confirm_extension "backup/site.tar.gz" {["tar.gz"]} = false.
Proof.
  apply (proj2 (proj2 (proj2 (extension_has_no_dot "backup/site.tar.gz")))).
  intros e He. apply elem_of_singleton in He. rewrite He. reflexivity.
Defined.

Lemma not_contains_not_startswith needle s :
  Py.contains needle s = false -> Py.startswith needle s = false.
Proof. destruct s; simpl; rewrite orb_false_iff; by intros [H _]. Qed.

Lemma join_ends_with_name root filename :
  exists pre, OsPath.join root filename = pre +:+ filename.
Proof.
  unfold OsPath.join. destruct (Py.startswith "/" filename); [by exists "" |].
  destruct (String.eqb root "" || Py.endswith_char OsPath.sep root).
  - by exists root.
  - exists (root +:+ "/"). by rewrite string_app_assoc.
Qed.

(** X2. For a listed name with a dot, the extension the filter tests on
    the joined path is the extension of the name itself, whatever the
    folder is called; a name without a dot under a folder with a dot is
    not taken for a file without extension. *)
Theorem extension_of_joined_path (root filename : string) :
  (Py.contains "." filename = true ->
   get_file_extension (OsPath.join root filename) = get_file_extension filename)
  /\ (Py.contains "." root = true -> Py.contains "." filename = false ->
      Py.contains "/" filename = false -> filename <> "" ->
      get_file_extension (OsPath.join root filename) <> "").
Proof.
  destruct (join_ends_with_name root filename) as [pre Hjoin]. split.
  - intros Hdot. rewrite Hjoin.
    destruct (cut_at_last_sep "." filename Hdot) as (a & ext & -> & Hext).
    change (a +:+ String "." ext) with (a +:+ "." +:+ ext).
    rewrite <- string_app_assoc.
    by rewrite !get_file_extension_after_last_dot.
  - intros Hroot Hname Hslash Hne He.
    apply get_file_extension_empty_iff in He.
    destruct He as [Hno | (pre' & Hend)].
    + assert (Py.contains "." (OsPath.join root filename) = true); [| congruence].
      unfold OsPath.join. rewrite (not_contains_not_startswith "/" filename Hslash).
      destruct (String.eqb root "" || Py.endswith_char OsPath.sep root);
        apply contains_substring; apply contains_substring in Hroot as (a & b & ->).
      * exists a, (b +:+ filename). by rewrite !string_app_assoc.
      * exists a, (b +:+ "/" +:+ filename). by rewrite !string_app_assoc.
    + (* the joined path would end with a dot, but it ends with the name *)
      assert (Hlast : forall x y : string, y <> "" -> Py.contains "." y = false ->
                forall z, x +:+ y = z +:+ "." -> False).
      { intros x y Hy Hnd z Hxy.
        assert (Py.contains "." y = true); [| congruence].
        clear Hnd. revert z Hxy. induction x as [|cx x IH]; intros z Hxy.
        - change (y = z +:+ ".") in Hxy. rewrite Hxy. apply contains_substring.
          exists z, "". by rewrite string_app_nil_r.
        - destruct z as [|cz z].
          + change (String cx (x +:+ y) = ".") in Hxy. injection Hxy as _ Hxy.
            destruct x as [|cx' x].
            * change (y = "") in Hxy. congruence.
            * change (String cx' (x +:+ y) = "") in Hxy. discriminate.
          + change (String cx (x +:+ y) = String cz (z +:+ ".")) in Hxy.
            injection Hxy as _ Hxy. by eapply IH. }
      rewrite Hjoin in Hend. by eapply Hlast.
Qed.

Lemma extension_of_joined_path_witness :
  get_file_extension (OsPath.join "release-1.2" "notes.md") = get_file_extension "notes.md"
  /\ get_file_extension (OsPath.join "release-1.2" "README") <> "".
Proof.
  split.
  - apply (proj1 (extension_of_joined_path "release-1.2" "notes.md")). reflexivity.
  - apply (proj2 (extension_of_joined_path "release-1.2" "README"));
      [reflexivity | reflexivity | reflexivity | discriminate].
Defined.

(** ** What the filter touches *)

Lemma scrape_file_steps (fs : FileSystem) (filename : string)
    (extensions : gset string) (max_size : Z) (r : Run) :
  exists found r',
    scrape_file fs filename extensions max_size r = (Return found, r')
    /\ (get_file_extension filename ∉ extensions -> found = None /\ r' = r)
    /\ (get_file_extension filename ∈ extensions ->
        ~ 0 < size_or_zero fs (clock r) filename <= max_size ->
        found = None /\ trace r' = trace r ++ [Stat filename])
    /\ (get_file_extension filename ∈ extensions ->
        0 < size_or_zero fs (clock r) filename <= max_size ->
        match fs_read fs (S (clock r)) filename with
        | inr text =>
            if String.eqb text "" then
              found = None /\ trace r' = trace r ++ [Stat filename; Read filename]
            else
              trace r' = trace r ++ [Stat filename; Read filename; Now]
              /\ found = Some {| name := OsPath.basename filename;
                                 directory := OsPath.dirname filename;
                                 content := text;
                                 size := size_or_zero fs (clock r) filename;
                                 scraped_at := Some (fs_now fs (S (S (clock r)))) |}
        | inl _ => found = None /\ trace r' = trace r ++ [Stat filename; Read filename]
        end).
Proof.
  unfold scrape_file, confirm_extension, size_or_zero.
  destruct (decide (get_file_extension filename ∈ extensions)) as [Hext | Hext].
  2: { rewrite bool_decide_eq_false_2 by done. simpl. exists None, r.
       split_and!; try done. }
  rewrite bool_decide_eq_true_2 by done. simpl.
  unfold mbind, M_bind, bind. rewrite get_file_size_eq.
  destruct (fs_getsize fs (clock r) filename) as [e | n] eqn:Hsize.
  { eexists _, _. split; [reflexivity |]. split_and!; try done. intros _ H. lia. }
  destruct ((n =? 0) || (n <=? 0) || (n >? max_size)) eqn:Hn.
  { eexists _, _. split; [reflexivity |]. split_and!; try done. intros _ H.
    rewrite !orb_true_iff, Z.eqb_eq, Z.leb_le, Z.gtb_ltb, Z.ltb_lt in Hn. lia. }
  rewrite get_file_content_eq, clock_event.
  destruct (fs_read fs (S (clock r)) filename) as [e | text] eqn:Hread.
  { eexists _, _. split; [reflexivity |]. split_and!; try done.
    - intros _ H. rewrite !orb_false_iff, Z.eqb_neq, Z.leb_gt, Z.gtb_ltb, Z.ltb_ge in Hn. lia.
    - intros _ _. simpl. by rewrite <- app_assoc. }
  destruct (String.eqb text "") eqn:Htext.
  { eexists _, _. split; [reflexivity |]. split_and!; try done.
    - intros _ H. rewrite !orb_false_iff, Z.eqb_neq, Z.leb_gt, Z.gtb_ltb, Z.ltb_ge in Hn. lia.
    - intros _ _. simpl. by rewrite <- app_assoc. }
  eexists _, _. split; [reflexivity |]. split_and!; try done.
  - intros _ H. rewrite !orb_false_iff, Z.eqb_neq, Z.leb_gt, Z.gtb_ltb, Z.ltb_ge in Hn. lia.
  - intros _ _. simpl. rewrite <- !app_assoc. split; [done |].
    unfold clock. simpl. rewrite !length_app. simpl.
    repeat f_equal. lia.
Qed.

(** X3. [scrape_file] asks the file system in a fixed order and stops at
    the first check that fails: nothing at all for a wrong extension,
    the size alone when it is missing, zero or above the cap, and the
    content only after a size within the cap; a record comes only with
    all three calls made. *)
Theorem scrape_file_touches_in_order (fs : FileSystem) (filename : string)
    (extensions : gset string) (max_size : Z) (r : Run) :
  exists found r',
    scrape_file fs filename extensions max_size r = (Return found, r')
    /\ (get_file_extension filename ∉ extensions -> found = None /\ r' = r)
    /\ (get_file_extension filename ∈ extensions ->
        ~ 0 < size_or_zero fs (clock r) filename <= max_size ->
        found = None /\ trace r' = trace r ++ [Stat filename])
    /\ (get_file_extension filename ∈ extensions ->
        0 < size_or_zero fs (clock r) filename <= max_size ->
        match fs_read fs (S (clock r)) filename with
        | inr text =>
            if String.eqb text "" then
              found = None /\ trace r' = trace r ++ [Stat filename; Read filename]
            else
              trace r' = trace r ++ [Stat filename; Read filename; Now]
              /\ found = Some {| name := OsPath.basename filename;
                                 directory := OsPath.dirname filename;
                                 content := text;
                                 size := size_or_zero fs (clock r) filename;
                                 scraped_at := Some (fs_now fs (S (S (clock r)))) |}
        | inl _ => found = None /\ trace r' = trace r ++ [Stat filename; Read filename]
        end).
Proof. apply scrape_file_steps. Qed.

Lemma scrape_file_touches_in_order_witness :
  exists found r',
    scrape_file docs_fs "docs/a.py" {["py"]} 40 start = (Return found, r')
    /\ found = None /\ trace r' = [Stat "docs/a.py"].
Proof.
  destruct (scrape_file_touches_in_order docs_fs "docs/a.py" {["py"]} 40 start)
    as (found & r' & Hs & _ & Hsize & _).
  exists found, r'. split; [exact Hs |].
  apply Hsize; [by vm_compute | change (~ 0 < 50 <= 40); lia].
Defined.

(** ** The fields of a record *)

Lemma cut_tail_without_slash p : Py.contains "/" (snd (OsPath.cut p)) = false.
Proof.
  induction p as [|c p IH]; [done |]. simpl.
  destruct (OsPath.cut p) as [head tail]. simpl in IH.
  destruct head; [| done].
  destruct (Ascii.eqb c OsPath.sep) eqn:Hc; simpl; [done |].
  change (Py.contains "/" (String c tail) = false).
  rewrite contains_char_cons, IH, Ascii.eqb_sym. exact (orb_false_intro _ _ Hc eq_refl).
Qed.

Lemma cut_without_slash f : Py.contains "/" f = false -> OsPath.cut f = ("", f).
Proof.
  induction f as [|c f IH]; [done |].
  rewrite contains_char_cons, orb_false_iff. intros [Hc Hf]. simpl.
  rewrite (IH Hf). rewrite Ascii.eqb_sym in Hc. unfold OsPath.sep. by rewrite Hc.
Qed.

Lemma cut_after_slash a f :
  Py.contains "/" f = false -> OsPath.cut (a +:+ String "/" f) = (a +:+ "/", f).
Proof.
  intros Hf. induction a as [|c a IH].
  - change (OsPath.cut (String "/" f) = ("/", f)). simpl. by rewrite (cut_without_slash f Hf).
  - change (OsPath.cut (String c (a +:+ String "/" f)) = (String c (a +:+ "/"), f)).
    simpl. rewrite IH. by destruct a.
Qed.

Lemma endswith_char_app c s :
  Py.endswith_char c s = true -> exists a, s = a +:+ String c "".
Proof.
  induction s as [|x s IH]; [done |]. simpl. destruct s as [|y s].
  - intros H. apply Ascii.eqb_eq in H as ->. by exists "".
  - intros H. destruct (IH H) as [a Ha]. exists (String x a). by rewrite Ha.
Qed.

Lemma basename_join root filename :
  Py.contains "/" filename = false ->
  OsPath.basename (OsPath.join root filename) = filename.
Proof.
  intros Hf. unfold OsPath.basename, OsPath.join.
  rewrite (not_contains_not_startswith "/" filename Hf).
  destruct (String.eqb root "") eqn:Hroot; simpl.
  - apply String.eqb_eq in Hroot as ->.
    change ("" +:+ filename) with filename. by rewrite cut_without_slash.
  - destruct (Py.endswith_char OsPath.sep root) eqn:Hend.
    + apply endswith_char_app in Hend as [a ->]. rewrite string_app_assoc.
      change (String OsPath.sep "" +:+ filename) with (String "/" filename).
      by rewrite cut_after_slash.
    + change (root +:+ "/" +:+ filename) with (root +:+ String "/" filename).
      by rewrite cut_after_slash.
Qed.

(** X4. Every record of a walk has a content that is not empty and a
    name without a slash; it stands for a file that a walk of one of the
    directories listed, and when the listed name holds no slash, as the
    names of a directory listing do, the record's name is that name. *)
Theorem records_name_listed_files (fs : FileSystem) (extensions : gset string)
    (max_size max_total_size : Z) (ignore_dirs directories : list string) (r : Run) :
  exists acc r',
    scrape_directories fs extensions max_size max_total_size ignore_dirs directories r
      = (Return acc, r')
    /\ Forall (fun file =>
         content file <> ""
         /\ Py.contains "/" (name file) = false
         /\ exists root filenames filename t d,
              In d directories
              /\ In (root, filenames) (fst (fs_walk fs t d))
              /\ In filename filenames
              /\ directory file = OsPath.dirname (OsPath.join root filename)
              /\ (Py.contains "/" filename = false -> name file = filename))
       (files acc).
Proof.
  destruct (scrape_directories_log fs extensions max_size max_total_size ignore_dirs
              directories r)
    as (acc & r' & l & scanned & rest & Hs & _ & _ & _ & _ & _ & Hl & Hf & _).
  exists acc, r'. split; [exact Hs |]. rewrite Hf. apply Forall_map.
  eapply Forall_impl; [exact Hl |].
  intros a [(_ & _ & _ & _ & _ & Hcontent & Hname & Hdir & _) (t & d & fns & Hd & H1 & H2)].
  simpl. split_and!.
  - done.
  - rewrite Hname. apply cut_tail_without_slash.
  - exists (at_root a), fns, (at_filename a), t, d. split_and!; try done.
    intros Hslash. rewrite Hname. by apply basename_join.
Qed.

Lemma records_name_listed_files_witness :
  exists acc r',
    scrape_directories docs_fs {["py"]} 1000 1000 [] ["docs/"] start = (Return acc, r')
    /\ Forall (fun file =>
         content file <> ""
         /\ Py.contains "/" (name file) = false
         /\ exists root filenames filename t d,
              In d ["docs/"]
              /\ In (root, filenames) (fst (fs_walk docs_fs t d))
              /\ In filename filenames
              /\ directory file = OsPath.dirname (OsPath.join root filename)
              /\ (Py.contains "/" filename = false -> name file = filename))
       (files acc).
Proof.
  exact (records_name_listed_files docs_fs {["py"]} 1000 1000 [] ["docs/"] start).
Defined.

(** ** Duplicate paths, once more *)

Lemma remove_duplicate_paths_fixed paths :
  NoDup (map OsPath.normpath paths) -> remove_duplicate_paths paths = paths.
Proof.
  induction paths as [|p paths IH] using rev_ind; [done |].
  rewrite map_app. intros Hnd. apply NoDup_app in Hnd as (Hnd & Hdisj & _).
  rewrite remove_duplicate_paths_snoc, (IH Hnd).
  rewrite bool_decide_eq_false_2; [done |].
  intros Hin. apply (Hdisj _ Hin). simpl. by left.
Qed.

(** X5. Removing duplicate paths a second time changes nothing, a list
    whose normal forms differ pairwise is left as it is, and the result
    is never longer than the input and empty only for an empty input. *)
Theorem remove_duplicate_paths_idempotent (paths : list string) :
  remove_duplicate_paths (remove_duplicate_paths paths) = remove_duplicate_paths paths
  /\ (NoDup (map OsPath.normpath paths) -> remove_duplicate_paths paths = paths)
  /\ (length (remove_duplicate_paths paths) <= length paths)%nat
  /\ (remove_duplicate_paths paths = [] <-> paths = []).
Proof.
  split_and!.
  - apply remove_duplicate_paths_fixed, remove_duplicate_paths_NoDup.
  - apply remove_duplicate_paths_fixed.
  - apply sublist_length, remove_duplicate_paths_sublist.
  - split; [| by intros ->].
    intros H. destruct paths as [|p paths]; [done |].
    by apply (remove_duplicate_paths_nonempty (p :: paths)) in H.
Qed.

Lemma remove_duplicate_paths_idempotent_witness :
  remove_duplicate_paths ["src"; "lib/../tests"; "docs/"] = ["src"; "lib/../tests"; "docs/"].
Proof.
  apply (proj1 (proj2 (remove_duplicate_paths_idempotent
                         ["src"; "lib/../tests"; "docs/"]))).
  vm_compute. repeat constructor; set_solver.
Defined.

(** ** The extension tokens *)

Lemma comprehension_returns xs :
  ~ In "" xs ->
  exists tokens, comprehension remove_dot_from_extension xs = Return tokens.
Proof.
  induction xs as [|x xs IH]; intros Hno; simpl; [by exists [] |].
  destruct x as [|c x]; [exfalso; apply Hno; by left |].
  destruct IH as [tokens ->]; [intros H; apply Hno; by right |].
  simpl. destruct (Ascii.eqb c "."); by eexists.
Qed.

Lemma comprehension_raises_only_on_empty xs e :
  comprehension remove_dot_from_extension xs = Raise e ->
  In "" xs /\ e = IndexError "string index out of range".
Proof.
  induction xs as [|x xs IH]; simpl; [done |].
  destruct x as [|c x]; simpl.
  - intros [= <-]. split; [by left | done].
  - destruct (Ascii.eqb c ".");
      (destruct (comprehension remove_dot_from_extension xs) eqn:E; [done |]);
      intros [= <-]; destruct (IH eq_refl) as [Hin ->]; (split; [by right | done]).
Qed.

Lemma startswith_char_cons a c s :
  Py.startswith (String a "") (String c s) = Ascii.eqb a c.
Proof. simpl. apply andb_true_r. Qed.

(** X6. [remove_dot_from_extension] takes one leading dot away and
    leaves every other token as it is, so [.py] and [py] ask for the same
    extension and [..py] for [.py]; the list of tokens fails to
    normalise exactly when one of them is empty, and [main] uses the
    tokens only as a set: two command lines whose tokens give the same
    set run alike. *)
Theorem extension_tokens_normalise :
  (forall e, remove_dot_from_extension (String "." e) = Return e)
  /\ (forall e, e <> "" -> Py.startswith "." e = false ->
        remove_dot_from_extension e = Return e)
  /\ (forall xs,
        (exists e, comprehension remove_dot_from_extension xs = Raise e) <-> In "" xs)
  /\ (forall fs args args' r tokens tokens',
        arg_max_size args = arg_max_size args' ->
        arg_max_total_size args = arg_max_total_size args' ->
        arg_ignore_dirs args = arg_ignore_dirs args' ->
        arg_dirs args = arg_dirs args' ->
        arg_output args = arg_output args' ->
        comprehension remove_dot_from_extension (Py.split "," (arg_extensions args))
          = Return tokens ->
        comprehension remove_dot_from_extension (Py.split "," (arg_extensions args'))
          = Return tokens' ->
        list_to_set tokens =@{gset string} list_to_set tokens' ->
        main fs args r = main fs args' r).
Proof.
  split_and!.
  - done.
  - intros [|c e] Hne Hdot; [done |].
    rewrite startswith_char_cons, Ascii.eqb_sym in Hdot.
    unfold remove_dot_from_extension. by rewrite Hdot.
  - intros xs. split.
    + intros [e He]. by apply comprehension_raises_only_on_empty in He as [H _].
    + intros Hin. exists (IndexError "string index out of range").
      apply (comprehension_raises _ _ "" _ Hin); [done |].
      intros [|c y] e'; simpl; [by intros [= <-] |]. by destruct (Ascii.eqb c ".").
  - intros fs args args' r tokens tokens' E1 E2 E3 E4 E5 Ht Ht' Hset.
    unfold main, mbind, M_bind, bind, lift.
    by rewrite Ht, Ht', E1, E2, E3, E4, E5, Hset.
Qed.

Lemma extension_tokens_normalise_witness :
  main docs_fs dotted_args start = main docs_fs plain_args start.
Proof.
  apply (proj2 (proj2 (proj2 extension_tokens_normalise))
           docs_fs dotted_args plain_args start ["py"; "py"; "txt"] ["txt"; "py"]);
    reflexivity.
Defined.

(** ** The outcomes of [main] *)

(** X7. Once the command line is parsed, the rest of [main] ends in one
    of three ways, the writing of the output being taken as one step
    that fails or writes the whole document.  With an empty extension
    token it raises the index error at once.  Otherwise it walks, prints
    the summary, and then either the writing fails and that error leaves
    [main] with no document recorded, or the one document with the walk's
    triple is written and reported.  It never raises [SystemExit]:
    neither the check for no directories nor the check for no extensions
    can fire. *)
Theorem main_outcomes (fs : FileSystem) (args : Args) (r : Run) :
  ((In "" (Py.split "," (arg_extensions args))
    /\ main fs args r = (Raise (IndexError "string index out of range"), r))
   \/ (exists tokens acc r1,
         comprehension remove_dot_from_extension (Py.split "," (arg_extensions args))
           = Return tokens
         /\ scrape_directories fs (list_to_set tokens) (arg_max_size args)
              (arg_max_total_size args) (ignore_list args) (directory_list args) r
            = (Return acc, r1)
         /\ let r2 := record_notice (ScrapedNotice (file_count acc) (total_size acc)) r1 in
            match fs_write fs (clock r1) (arg_output args) with
            | Some e => main fs args r = (Raise (IOFailure e), r2)
            | None =>
                main fs args r =
                (Return tt,
                 record_notice (WrittenNotice (arg_output args))
                   (record_event
                      (Dump (arg_output args)
                         {| doc_files := files acc;
                            doc_total_size := total_size acc;
                            doc_file_count := file_count acc |}) r2))
            end))
  /\ (forall code, fst (main fs args r) <> Raise (SystemExit code)).
Proof.
  assert (Hcases :
    (In "" (Py.split "," (arg_extensions args))
     /\ main fs args r = (Raise (IndexError "string index out of range"), r))
    \/ (exists tokens acc r1,
          comprehension remove_dot_from_extension (Py.split "," (arg_extensions args))
            = Return tokens
          /\ scrape_directories fs (list_to_set tokens) (arg_max_size args)
               (arg_max_total_size args) (ignore_list args) (directory_list args) r
             = (Return acc, r1)
          /\ let r2 := record_notice (ScrapedNotice (file_count acc) (total_size acc)) r1 in
             match fs_write fs (clock r1) (arg_output args) with
             | Some e => main fs args r = (Raise (IOFailure e), r2)
             | None =>
                 main fs args r =
                 (Return tt,
                  record_notice (WrittenNotice (arg_output args))
                    (record_event
                       (Dump (arg_output args)
                          {| doc_files := files acc;
                             doc_total_size := total_size acc;
                             doc_file_count := file_count acc |}) r2))
             end)).
  { destruct (comprehension remove_dot_from_extension (Py.split "," (arg_extensions args)))
      as [tokens | e] eqn:Htok.
    - right.
      destruct (scrape_directories_log fs (list_to_set tokens) (arg_max_size args)
                  (arg_max_total_size args) (ignore_list args) (directory_list args) r)
        as (acc & r1 & l & scanned & rest & Hs & _).
      exists tokens, acc, r1. split; [done |]. split; [exact Hs |].
      unfold main, mbind, M_bind, bind, lift. rewrite Htok. simpl.
      fold (directory_list args). fold (ignore_list args).
      rewrite bool_decide_eq_false_2
        by apply remove_duplicate_paths_nonempty, split_nonempty.
      rewrite bool_decide_eq_false_2 by (by eapply extension_tokens_nonempty).
      rewrite Hs. unfold PrintUtils_success, json_dump. simpl.
      change (clock (record_notice (ScrapedNotice (file_count acc) (total_size acc)) r1))
        with (clock r1).
      by destruct (fs_write fs (clock r1) (arg_output args)).
    - left. apply comprehension_raises_only_on_empty in Htok as Hin.
      destruct Hin as [Hin ->]. split; [done |].
      unfold main, mbind, M_bind, bind, lift. by rewrite Htok. }
  split; [exact Hcases |].
  intros code.
  destruct Hcases as [[_ ->] | (tokens & acc & r1 & _ & _ & Hw)]; [done |].
  simpl in Hw. destruct (fs_write fs (clock r1) (arg_output args)); by rewrite Hw.
Qed.

(** ** The ignore list that [main] builds *)

Lemma normpath_not_empty path : OsPath.normpath path <> "".
Proof.
  unfold OsPath.normpath. destruct (String.eqb path ""); [done |].
  match goal with |- (if String.eqb ?p "" then _ else _) <> _ =>
    destruct (String.eqb p "") eqn:E; [done |]; by apply String.eqb_neq in E end.
Qed.

(** X8. The ignore list handed to the walk is never empty, holds no
    empty entry and no entry twice; an empty token of [--ignore-dirs],
    and so the default value, puts the entry [.] on it. *)
Theorem ignore_list_entries (args : Args) :
  ignore_list args <> []
  /\ ~ In "" (ignore_list args)
  /\ NoDup (ignore_list args)
  /\ (In "" (Py.split "," (arg_ignore_dirs args)) -> In "." (ignore_list args))
  /\ (arg_ignore_dirs args = "" -> ignore_list args = ["."]).
Proof.
  unfold ignore_list. split_and!.
  - intros H. apply map_eq_nil in H.
    by apply remove_duplicate_paths_nonempty in H; [| apply split_nonempty].
  - intros H. apply in_map_iff in H as (p & Hp & _). by apply normpath_not_empty in Hp.
  - apply remove_duplicate_paths_NoDup.
  - intros Hin.
    pose proof (remove_duplicate_paths_covers (Py.split "," (arg_ignore_dirs args))) as H.
    rewrite Forall_forall in H. apply list_elem_of_In in Hin. apply H in Hin.
    by apply list_elem_of_In in Hin.
  - by intros ->.
Qed.

Lemma ignore_list_entries_witness :
  In "." (ignore_list trailing_comma_args).
Proof.
  apply (proj1 (proj2 (proj2 (proj2 (ignore_list_entries trailing_comma_args))))).
  left. reflexivity.
Defined.

(** ** The ignore entry [.] *)

Lemma dot_entry_ignores path ignore_dirs :
  In "." ignore_dirs -> Py.contains "." path = true ->
  file_in_ignore_dirs path ignore_dirs = true.
Proof.
  intros Hin Hdot. apply file_in_ignore_dirs_true.
  apply contains_substring in Hdot as (pre & post & ->). by exists ".", pre, post.
Qed.

Lemma nothing_accepted_under_dot fs extensions max_size ignore_dirs a :
  In "." ignore_dirs -> "" ∉ extensions ->
  ~ accepted fs extensions max_size ignore_dirs a.
Proof.
  intros Hin Hno (Hign & Hext & _).
  destruct (Py.contains "." (candidate_path a)) eqn:Hdot.
  - rewrite (dot_entry_ignores _ _ Hin Hdot) in Hign. done.
  - rewrite (get_file_extension_without_dot _ Hdot) in Hext. done.
Qed.

Lemma comprehension_In {A B} (f : A -> result B) xs ys y :
  comprehension f xs = Return ys -> In y ys -> exists x, In x xs /\ f x = Return y.
Proof.
  revert ys. induction xs as [|x xs IH]; intros ys; simpl.
  - by intros [= <-].
  - destruct (f x) as [b | e] eqn:Hx; [| done].
    destruct (comprehension f xs) as [bs | e]; [| done].
    intros [= <-] [<- | Hin].
    + exists x. split; [by left | done].
    + destruct (IH bs eq_refl Hin) as (x' & Hx' & Hf). exists x'. split; [by right | done].
Qed.

Lemma empty_extension_needs_dot_token s tokens :
  comprehension remove_dot_from_extension (Py.split "," s) = Return tokens ->
  ~ In "." (Py.split "," s) -> "" ∉ (list_to_set tokens : gset string).
Proof.
  intros Htok Hno Hin. apply elem_of_list_to_set, list_elem_of_In in Hin.
  destruct (comprehension_In _ _ _ _ Htok Hin) as (x & Hx & Hf).
  apply Hno. destruct x as [|c x]; [done |]. simpl in Hf.
  destruct (Ascii.eqb c ".") eqn:Hc; [| done].
  apply Ascii.eqb_eq in Hc as ->. injection Hf as ->. done.
Qed.

(** X9. With the entry [.] on the ignore list and no empty extension
    asked for, a walk returns no record, a zero total and a zero count,
    whatever the directories hold; this is the case of every command line
    that leaves [--ignore-dirs] at its default and has no extension
    token that is a lone dot, and the document it writes is empty. *)
Theorem dot_entry_empties_the_output (fs : FileSystem) (extensions : gset string)
    (max_size max_total_size : Z) (ignore_dirs : list string)
    (Hdot : In "." ignore_dirs) (Hext : "" ∉ extensions) :
  (forall directories r,
     exists r',
       scrape_directories fs extensions max_size max_total_size ignore_dirs directories r
         = (Return no_totals, r'))
  /\ (forall args doc,
        ignore_list args = ignore_dirs ->
        ~ In "." (Py.split "," (arg_extensions args)) ->
        In doc (dumped (trace (snd (main fs args start)))) ->
        doc = {| doc_files := []; doc_total_size := 0; doc_file_count := 0 |}).
Proof.
  assert (Hwalk : forall exts ms mts directories r,
            "" ∉ exts ->
            exists r',
              scrape_directories fs exts ms mts ignore_dirs directories r
                = (Return no_totals, r')).
  { intros exts ms mts directories r Hno.
    destruct (scrape_directories_log fs exts ms mts ignore_dirs directories r)
      as (acc & r' & l & scanned & rest & Hs & _ & _ & _ & _ & _ & Hl & Hf & Ht & Hc).
    exists r'. rewrite Hs. f_equal. f_equal.
    destruct l as [|a l].
    - destruct acc as [fl ts fc]. simpl in *. subst. f_equal. lia.
    - apply Forall_cons_1 in Hl as [[Ha _] _].
      by apply (nothing_accepted_under_dot _ _ _ _ _ Hdot Hno) in Ha. }
  split.
  - intros directories r. by apply Hwalk.
  - intros args doc Hign Hno Hdoc.
    apply main_dumped in Hdoc as [[] | (tokens & acc & r1 & Htok & Hs & ->)].
    rewrite Hign in Hs.
    destruct (Hwalk (list_to_set tokens) (arg_max_size args) (arg_max_total_size args)
                (directory_list args) start) as (r' & Hs').
    { by eapply empty_extension_needs_dot_token. }
    rewrite Hs in Hs'. by injection Hs' as -> _.
Qed.

Lemma dot_entry_empties_the_output_witness :
  exists r',
    scrape_directories docs_fs {["py"]} 1000 1000 ["."] ["docs/"] start
      = (Return no_totals, r').
Proof.
  assert (Hdot : In "." ["."]) by (left; reflexivity).
  assert (Hext : "" ∉ ({["py"]} : gset string)).
  { intros H. apply elem_of_singleton in H. discriminate. }
  exact (proj1 (dot_entry_empties_the_output docs_fs {["py"]} 1000 1000 ["."] Hdot Hext)
           ["docs/"] start).
Defined.

(** ** How far the counter and the total can drift *)

Section Drift.

Variables (fs : FileSystem) (extensions : gset string)
  (max_size max_total_size : Z) (ignore_dirs : list string).

Lemma added_nonnegative a :
  nonnegative_sizes fs -> accepted fs extensions max_size ignore_dirs a -> 0 <= added a.
Proof.
  intros Hnn (_ & _ & _ & _ & _ & _ & _ & _ & ->). unfold size_or_zero.
  destruct (fs_getsize fs _ _) eqn:E; [lia | by eapply Hnn].
Qed.

Lemma added_within_cap a :
  restat_agrees fs -> accepted fs extensions max_size ignore_dirs a ->
  0 < added a <= max_size.
Proof.
  intros Hag (_ & _ & Hsize & Hb & _ & _ & _ & _ & ->). unfold size_or_zero.
  by rewrite (Hag _ _ _ Hsize).
Qed.

(** One folder: the counter misses at most the one record that crossed
    the cap, and then the total is above the cap. *)
Lemma for_filenames_drift root filenames acc r :
  exists acc' r',
    for_filenames fs extensions max_size max_total_size ignore_dirs root filenames acc r
      = (Normal, acc', r')
    /\ lag acc <= lag acc' <= lag acc + 1
    /\ (total_size acc' <= max_total_size -> lag acc' = lag acc)
    /\ (nonnegative_sizes fs -> total_size acc <= total_size acc')
    /\ (restat_agrees fs -> 0 <= max_size ->
        total_size acc' <= Z.max (total_size acc) max_total_size + max_size).
Proof.
  revert acc r. induction filenames as [|filename rest IH]; intros acc r; simpl.
  { exists acc, r. split_and!; try done; lia. }
  destruct (visit_cases fs extensions max_size max_total_size ignore_dirs
              root filename acc r) as (c & acc1 & r1 & -> & _ & Hcases).
  destruct Hcases as [[-> ->] | (a & Ha & _ & _ & Hfiles & Htotal & Hcount)].
  { apply IH. }
  assert (Hlen : Z.of_nat (length (files acc1)) = Z.of_nat (length (files acc)) + 1).
  { rewrite Hfiles, length_app. simpl. lia. }
  destruct Hcount as [(-> & Hcap & Hc) | (-> & Hcap & Hc)].
  - exists acc1, r1. unfold lag. split_and!; try done; try lia.
    + intros Hnn. pose proof (added_nonnegative a Hnn Ha). lia.
    + intros Hag Hms. pose proof (added_within_cap a Hag Ha). lia.
  - destruct (IH acc1 r1) as (acc' & r' & -> & Hlag & Hsame & Hmono & Hbound).
    exists acc', r'. unfold lag in *. split_and!; try done; try lia.
    + intros Hnn. pose proof (added_nonnegative a Hnn Ha). specialize (Hmono Hnn). lia.
    + intros Hag Hms. pose proof (added_within_cap a Hag Ha).
      specialize (Hbound Hag Hms). lia.
Qed.

Lemma for_walk_drift entries acc r :
  exists acc' r',
    for_walk fs extensions max_size max_total_size ignore_dirs entries acc r
      = (Normal, acc', r')
    /\ lag acc <= lag acc' <= lag acc + Z.of_nat (length entries)
    /\ (nonnegative_sizes fs -> total_size acc <= total_size acc')
    /\ (nonnegative_sizes fs -> total_size acc' <= max_total_size -> lag acc' = lag acc)
    /\ (restat_agrees fs -> 0 <= max_size ->
        total_size acc'
        <= Z.max (total_size acc) max_total_size + Z.of_nat (length entries) * max_size).
Proof.
  revert acc r. induction entries as [|[root filenames] rest IH]; intros acc r.
  { exists acc, r. simpl. split_and!; try done; lia. }
  cbn [for_walk].
  destruct (for_filenames_drift root filenames acc r)
    as (acc1 & r1 & -> & Hlag1 & Hsame1 & Hmono1 & Hbound1).
  destruct (IH acc1 r1) as (acc' & r' & -> & Hlag & Hmono & Hsame & Hbound).
  exists acc', r'. cbn [length]. split_and!; try done; try lia.
  - intros Hnn. specialize (Hmono1 Hnn). specialize (Hmono Hnn). lia.
  - intros Hnn Hcap. specialize (Hmono Hnn). specialize (Hsame Hnn Hcap).
    rewrite Hsame. apply Hsame1. lia.
  - intros Hag Hms. specialize (Hbound1 Hag Hms). specialize (Hbound Hag Hms). nia.
Qed.

Lemma scrape_directory_drift directory r :
  exists acc r',
    scrape_directory fs extensions max_size max_total_size ignore_dirs directory r
      = (Return acc, r')
    /\ 0 <= lag acc <= Z.of_nat (length (fst (fs_walk fs (clock r) directory)))
    /\ (nonnegative_sizes fs -> 0 <= total_size acc)
    /\ (nonnegative_sizes fs -> total_size acc <= max_total_size -> lag acc = 0)
    /\ (restat_agrees fs -> 0 <= max_size -> 0 <= max_total_size ->
        total_size acc
        <= max_total_size
           + Z.of_nat (length (fst (fs_walk fs (clock r) directory))) * max_size).
Proof.
  destruct (scrape_directory_unfold fs extensions max_size max_total_size ignore_dirs
              directory r) as (acc & r1 & Hw & ->).
  destruct (for_walk_drift (fst (fs_walk fs (clock r) directory)) no_totals
              (record_event (Walk directory) r))
    as (acc' & r' & Hw' & Hlag & Hmono & Hsame & Hbound).
  rewrite Hw in Hw'. injection Hw' as <- <-.
  eexists _, _. split; [reflexivity |]. unfold lag in *. simpl in *.
  split_and!; try done; try lia.
  intros Hag Hms Hcap. specialize (Hbound Hag Hms). lia.
Qed.

Lemma scrape_directories_loop_drift len_dirs i directories acc r :
  nonnegative_sizes fs -> 0 <= total_size acc ->
  exists acc' r',
    scrape_directories_loop fs extensions max_size max_total_size ignore_dirs
      len_dirs i directories acc r = (Return acc', r')
    /\ total_size acc <= total_size acc'
    /\ (total_size acc' <= max_total_size -> lag acc' = lag acc).
Proof.
  intros Hnn. revert i acc r.
  induction directories as [|directory rest IH]; intros i acc r Hacc; simpl.
  { exists acc, r. split_and!; try done; lia. }
  unfold mbind, M_bind, bind, PrintUtils_info.
  destruct (scrape_directory_drift directory
              (record_notice (ProgressNotice (i + 1) len_dirs directory) r))
    as (found & r1 & -> & Hlag & Hpos & Hsame & _).
  specialize (Hpos Hnn). specialize (Hsame Hnn).
  rewrite Z.gtb_ltb.
  destruct (Z.ltb_spec max_total_size (total_size acc + total_size found)) as [Hcap | Hcap].
  - eexists _, _. split; [reflexivity |]. simpl. split; [lia |]. lia.
  - match goal with |- context [scrape_directories_loop _ _ _ _ _ _ _ _ ?acc1 _] =>
      destruct (IH (S i) acc1 r1) as (acc' & r' & -> & Hmono & Hkeep); [simpl; lia |]
    end.
    simpl in Hmono. exists acc', r'. split; [reflexivity |]. split; [lia |].
    intros Hfinal. rewrite (Hkeep Hfinal). unfold lag in *. simpl. rewrite length_app.
    assert (total_size found <= max_total_size) by lia.
    specialize (Hsame H). lia.
Qed.

End Drift.

(** X10. In one per-directory walk the counter falls behind the list by
    at most one record for every folder that the walk lists: each folder
    can end with one record that crossed the cap and was not counted. *)
Theorem counter_lags_one_per_folder (fs : FileSystem) (extensions : gset string)
    (max_size max_total_size : Z) (ignore_dirs : list string)
    (directory : string) (r : Run) :
  exists acc r',
    scrape_directory fs extensions max_size max_total_size ignore_dirs directory r
      = (Return acc, r')
    /\ 0 <= Z.of_nat (length (files acc)) - file_count acc
         <= Z.of_nat (length (fst (fs_walk fs (clock r) directory))).
Proof.
  destruct (scrape_directory_drift fs extensions max_size max_total_size ignore_dirs
              directory r) as (acc & r' & Hs & Hlag & _).
  by exists acc, r'.
Qed.

(** X11. When no size answer is negative, totals never go below zero,
    and a total that ends within the cap means that nothing was cut
    off: the counter is the number of records, and the walk over all
    directories has walked every one of them. *)
Theorem count_is_exact_within_the_cap (fs : FileSystem) (extensions : gset string)
    (max_size max_total_size : Z) (ignore_dirs : list string)
    (Hsizes : nonnegative_sizes fs) :
  (forall directory r,
     exists acc r',
       scrape_directory fs extensions max_size max_total_size ignore_dirs directory r
         = (Return acc, r')
       /\ 0 <= total_size acc
       /\ (total_size acc <= max_total_size ->
           file_count acc = Z.of_nat (length (files acc))))
  /\ (forall directories r,
        exists acc r',
          scrape_directories fs extensions max_size max_total_size ignore_dirs
            directories r = (Return acc, r')
          /\ 0 <= total_size acc
          /\ (total_size acc <= max_total_size ->
              file_count acc = Z.of_nat (length (files acc))
              /\ walked (trace r') = walked (trace r) ++ directories)).
Proof.
  split.
  - intros directory r.
    destruct (scrape_directory_drift fs extensions max_size max_total_size ignore_dirs
                directory r) as (acc & r' & Hs & _ & Hpos & Hsame & _).
    exists acc, r'. split; [exact Hs |]. split; [by apply Hpos |].
    intros Hcap. specialize (Hsame Hsizes Hcap). unfold lag in Hsame. lia.
  - intros directories r.
    destruct (scrape_directories_loop_drift fs extensions max_size max_total_size
                ignore_dirs (length directories) 0 directories no_totals r Hsizes)
      as (acc & r' & Hs & Hmono & Hsame); [done |].
    destruct (scrape_directories_log fs extensions max_size max_total_size ignore_dirs
                directories r)
      as (acc0 & r0 & l & scanned & rest & Hs0 & Hds & Hw & _ & Hstop & _).
    unfold scrape_directories in Hs0. rewrite Hs in Hs0. injection Hs0 as <- <-.
    exists acc, r'. split; [exact Hs |]. split; [exact Hmono |].
    intros Hcap. specialize (Hsame Hcap). unfold lag in Hsame. simpl in Hsame.
    split; [lia |]. destruct Hstop as [-> | Hover]; [| lia].
    by rewrite Hw, Hds, app_nil_r.
Qed.

Lemma docs_fs_nonnegative_sizes : nonnegative_sizes docs_fs.
Proof.
  intros t filename n. unfold docs_fs, still_fs. cbn [fs_getsize].
  match goal with |- context [lookup_path filename ?tbl] =>
    destruct (lookup_path filename tbl); [| done] end.
  intros [= <-]. lia.
Defined.

Lemma count_is_exact_within_the_cap_witness :
  exists acc r',
    scrape_directories docs_fs {["py"]} 1000 1000 [] ["docs/"] start = (Return acc, r')
    /\ 0 <= total_size acc
    /\ (total_size acc <= 1000 ->
        file_count acc = Z.of_nat (length (files acc))
        /\ walked (trace r') = walked (trace start) ++ ["docs/"]).
Proof.
  exact (proj2 (count_is_exact_within_the_cap docs_fs {["py"]} 1000 1000 []
                  docs_fs_nonnegative_sizes) ["docs/"] start).
Defined.

Lemma scrape_directories_loop_overshoot fs extensions max_size max_total_size
    ignore_dirs k len_dirs i directories acc r :
  restat_agrees fs -> folders_at_most fs k -> 0 <= max_size -> 0 <= max_total_size ->
  total_size acc <= max_total_size ->
  exists acc' r',
    scrape_directories_loop fs extensions max_size max_total_size ignore_dirs
      len_dirs i directories acc r = (Return acc', r')
    /\ total_size acc' <= 2 * max_total_size + Z.of_nat k * max_size.
Proof.
  intros Hag Hk Hms Hcap. revert i acc r.
  induction directories as [|directory rest IH]; intros i acc r Hacc; simpl.
  { exists acc, r. split; [done |]. nia. }
  unfold mbind, M_bind, bind, PrintUtils_info.
  destruct (scrape_directory_drift fs extensions max_size max_total_size ignore_dirs
              directory (record_notice (ProgressNotice (i + 1) len_dirs directory) r))
    as (found & r1 & -> & _ & _ & _ & Hbound).
  specialize (Hbound Hag Hms Hcap).
  pose proof (Hk (clock (record_notice (ProgressNotice (i + 1) len_dirs directory) r))
                directory) as Hlen.
  assert (total_size found <= max_total_size + Z.of_nat k * max_size) by nia.
  rewrite Z.gtb_ltb.
  destruct (Z.ltb_spec max_total_size (total_size acc + total_size found)) as [Hover | Hin].
  - eexists _, _. split; [reflexivity |]. simpl. lia.
  - match goal with |- context [scrape_directories_loop _ _ _ _ _ _ _ _ ?acc1 _] =>
      destruct (IH (S i) acc1 r1) as (acc' & r' & -> & Hfinal); [simpl; lia |]
    end.
    by exists acc', r'.
Qed.

(** X12. When the second size answer for every file is the first, no
    walk lists more than [k] folders and both caps are at least zero, a
    per-directory walk ends with a total of at most the cap plus [k]
    times the per-file cap, and the walk over all directories, which
    starts every directory at zero again, with at most twice the cap plus
    [k] times the per-file cap. *)
Theorem total_overshoot_is_bounded (fs : FileSystem) (extensions : gset string)
    (max_size max_total_size : Z) (ignore_dirs : list string) (k : nat)
    (Hagree : restat_agrees fs) (Hfolders : folders_at_most fs k)
    (Hsize : 0 <= max_size) (Hcap : 0 <= max_total_size) :
  (forall directory r,
     exists acc r',
       scrape_directory fs extensions max_size max_total_size ignore_dirs directory r
         = (Return acc, r')
       /\ total_size acc <= max_total_size + Z.of_nat k * max_size)
  /\ (forall directories r,
        exists acc r',
          scrape_directories fs extensions max_size max_total_size ignore_dirs
            directories r = (Return acc, r')
          /\ total_size acc <= 2 * max_total_size + Z.of_nat k * max_size).
Proof.
  split.
  - intros directory r.
    destruct (scrape_directory_drift fs extensions max_size max_total_size ignore_dirs
                directory r) as (acc & r' & Hs & _ & _ & _ & Hbound).
    exists acc, r'. split; [exact Hs |]. specialize (Hbound Hagree Hsize Hcap).
    pose proof (Hfolders (clock r) directory) as Hlen.
    assert (Z.of_nat (length (fst (fs_walk fs (clock r) directory))) * max_size
            <= Z.of_nat k * max_size) by (apply Z.mul_le_mono_nonneg_r; lia).
    lia.
  - intros directories r. unfold scrape_directories.
    by apply scrape_directories_loop_overshoot.
Qed.

Lemma nested_fs_folders : folders_at_most nested_fs 2.
Proof.
  intros t directory. unfold nested_fs, still_fs. cbn [fs_walk lookup_path].
  destruct (String.eqb "d" directory); cbn [fst length]; lia.
Defined.

Lemma nested_fs_restat_agrees : restat_agrees nested_fs.
Proof. intros t filename n H. exact H. Defined.

Lemma total_overshoot_is_bounded_witness :
  exists acc r',
    scrape_directory nested_fs {["py"]} 1000 50 [] "d" start = (Return acc, r')
    /\ total_size acc <= 50 + Z.of_nat 2 * 1000.
Proof.
  assert (H1 : 0 <= 1000) by lia. assert (H2 : 0 <= 50) by lia.
  exact (proj1 (total_overshoot_is_bounded nested_fs {["py"]} 1000 50 [] 2
                  nested_fs_restat_agrees nested_fs_folders H1 H2) "d" start).
Defined.

(** ** What a walk asks the file system *)

Lemma calls_between_refl P r : calls_between P r r.
Proof. exists []. by rewrite app_nil_r. Qed.

Lemma calls_between_trans P r1 r2 r3 :
  calls_between P r1 r2 -> calls_between P r2 r3 -> calls_between P r1 r3.
Proof.
  intros (t1 & E1 & H1) (t2 & E2 & H2). exists (t1 ++ t2).
  rewrite E2, E1, <- app_assoc. split; [done | by apply Forall_app].
Qed.

Lemma calls_between_event (P : event -> Prop) r r' ev :
  P ev -> calls_between P r r' -> calls_between P r (record_event ev r').
Proof.
  intros Hev H. eapply calls_between_trans; [exact H |]. exists [ev]. split; [done |].
  by constructor.
Qed.

Lemma calls_between_notice P r r' n :
  calls_between P r r' -> calls_between P r (record_notice n r').
Proof. intros (t & E & H). by exists t. Qed.

Lemma calls_between_weaken (P Q : event -> Prop) r r' :
  (forall ev, P ev -> Q ev) -> calls_between P r r' -> calls_between Q r r'.
Proof.
  intros HPQ (t & E & H). exists t. split; [done |]. by eapply Forall_impl.
Qed.

Section Calls.

Variables (fs : FileSystem) (extensions : gset string)
  (max_size max_total_size : Z) (ignore_dirs : list string).

Lemma get_file_size_calls (P : event -> Prop) filename r :
  P (Stat filename) -> calls_between P r (snd (get_file_size fs filename r)).
Proof.
  intros HP. rewrite get_file_size_eq.
  destruct (fs_getsize fs (clock r) filename); simpl.
  - apply calls_between_notice, calls_between_event; [done | apply calls_between_refl].
  - apply calls_between_event; [done | apply calls_between_refl].
Qed.

Lemma scrape_file_calls (P : event -> Prop) filename r :
  (get_file_extension filename ∈ extensions ->
   P (Stat filename) /\ P (Read filename) /\ P Now) ->
  calls_between P r (snd (scrape_file fs filename extensions max_size r)).
Proof.
  intros HP.
  destruct (scrape_file_steps fs filename extensions max_size r)
    as (found & r' & -> & Hwrong & Hsize & Hread). simpl.
  destruct (decide (get_file_extension filename ∈ extensions)) as [Hext | Hext].
  2: { destruct (Hwrong Hext) as [_ ->]. apply calls_between_refl. }
  destruct (HP Hext) as (HS & HR & HN).
  destruct (decide (0 < size_or_zero fs (clock r) filename <= max_size)) as [Hb | Hb].
  2: { destruct (Hsize Hext Hb) as [_ Ht]. exists [Stat filename]. split; [done |].
       by constructor. }
  specialize (Hread Hext Hb).
  destruct (fs_read fs (S (clock r)) filename) as [e | text].
  - destruct Hread as [_ Ht]. exists [Stat filename; Read filename]. split; [done |].
    by repeat constructor.
  - destruct (String.eqb text "").
    + destruct Hread as [_ Ht]. exists [Stat filename; Read filename]. split; [done |].
      by repeat constructor.
    + destruct Hread as [Ht _]. exists [Stat filename; Read filename; Now].
      split; [done |]. by repeat constructor.
Qed.

Local Abbreviation allowed := (allowed_call extensions ignore_dirs []).

Lemma visit_calls root filename acc r :
  calls_between allowed r
    (snd (visit fs extensions max_size max_total_size ignore_dirs root filename acc r)).
Proof.
  unfold visit.
  destruct (file_in_ignore_dirs (OsPath.join root filename) ignore_dirs) eqn:Hign.
  { apply calls_between_refl. }
  pose proof (scrape_file_calls allowed (OsPath.join root filename) r) as Hfile.
  destruct (scrape_file fs (OsPath.join root filename) extensions max_size r)
    as [[[file |] | e] r1] eqn:Hs; simpl in Hfile |- *;
    try (apply Hfile; intros Hext; by repeat split).
  assert (Hext : get_file_extension (OsPath.join root filename) ∈ extensions).
  { destruct (decide (get_file_extension (OsPath.join root filename) ∈ extensions));
      [done |].
    by rewrite scrape_file_wrong_extension in Hs. }
  pose proof (get_file_size_calls allowed (OsPath.join root filename) r1
                (conj Hign Hext)) as Hsize.
  assert (Hboth : calls_between allowed r
                    (snd (get_file_size fs (OsPath.join root filename) r1))).
  { eapply calls_between_trans; [| exact Hsize]. apply Hfile. intros _. by repeat split. }
  destruct (get_file_size fs (OsPath.join root filename) r1) as [[n | e] r2];
    simpl in Hboth |- *; [| done].
  by destruct (_ >? _).
Qed.

Lemma for_filenames_calls root filenames acc r :
  calls_between allowed r
    (snd (for_filenames fs extensions max_size max_total_size ignore_dirs
            root filenames acc r)).
Proof.
  revert acc r. induction filenames as [|filename rest IH]; intros acc r; simpl.
  { apply calls_between_refl. }
  pose proof (visit_calls root filename acc r) as Hv.
  destruct (visit fs extensions max_size max_total_size ignore_dirs root filename acc r)
    as [[[| |e] acc1] r1]; simpl in Hv |- *; try done.
  eapply calls_between_trans; [exact Hv | apply IH].
Qed.

Lemma for_walk_calls entries acc r :
  calls_between allowed r
    (snd (for_walk fs extensions max_size max_total_size ignore_dirs entries acc r)).
Proof.
  revert acc r. induction entries as [|[root filenames] rest IH]; intros acc r; simpl.
  { apply calls_between_refl. }
  pose proof (for_filenames_calls root filenames acc r) as Hf.
  destruct (for_filenames fs extensions max_size max_total_size ignore_dirs
              root filenames acc r) as [[[| |e] acc1] r1]; simpl in Hf |- *; try done;
    (eapply calls_between_trans; [exact Hf | apply IH]).
Qed.

Lemma scrape_directory_calls directory r :
  calls_between (allowed_call extensions ignore_dirs [directory]) r
    (snd (scrape_directory fs extensions max_size max_total_size ignore_dirs directory r)).
Proof.
  destruct (scrape_directory_unfold fs extensions max_size max_total_size ignore_dirs
              directory r) as (acc & r1 & Hw & ->). simpl.
  pose proof (for_walk_calls (fst (fs_walk fs (clock r) directory)) no_totals
                (record_event (Walk directory) r)) as Hc.
  rewrite Hw in Hc. simpl in Hc.
  assert (Hall : calls_between (allowed_call extensions ignore_dirs [directory]) r r1).
  { eapply calls_between_trans.
    - apply (calls_between_event _ r r (Walk directory)); [by left |].
      apply calls_between_refl.
    - eapply calls_between_weaken; [| exact Hc]. by intros [].  }
  destruct (snd (fs_walk fs (clock r) directory)); [by apply calls_between_notice | done].
Qed.

Lemma scrape_directories_loop_calls len_dirs i directories acc r :
  calls_between (allowed_call extensions ignore_dirs directories) r
    (snd (scrape_directories_loop fs extensions max_size max_total_size ignore_dirs
            len_dirs i directories acc r)).
Proof.
  revert i acc r. induction directories as [|directory rest IH]; intros i acc r; simpl.
  { apply calls_between_refl. }
  unfold mbind, M_bind, bind, PrintUtils_info.
  pose proof (scrape_directory_calls directory
                (record_notice (ProgressNotice (i + 1) len_dirs directory) r)) as Hd.
  destruct (scrape_directory fs extensions max_size max_total_size ignore_dirs directory
              (record_notice (ProgressNotice (i + 1) len_dirs directory) r))
    as [[found | e] r1]; simpl in Hd.
  2: { eapply calls_between_weaken; [| exact Hd].
       intros []; simpl; try done. intros [<- | []]. by left. }
  assert (Hfirst : calls_between (allowed_call extensions ignore_dirs (directory :: rest))
                     r r1).
  { eapply calls_between_weaken; [| exact Hd].
    intros []; simpl; try done. intros [<- | []]. by left. }
  destruct (_ >? _); [done |].
  eapply calls_between_trans; [exact Hfirst |].
  eapply calls_between_weaken; [| apply IH].
  intros []; simpl; try done. intros H. by right.
Qed.

End Calls.

(** X13. A walk over a list of directories asks the file system only
    for the size and the content of paths that are not ignored and have a
    wanted extension, for the time, and for listings of directories on
    its list; an ignored file or one with another extension is never
    touched, and nothing is written. *)
Theorem walk_touches_only_wanted_paths (fs : FileSystem) (extensions : gset string)
    (max_size max_total_size : Z) (ignore_dirs directories : list string) (r : Run) :
  exists t,
    trace (snd (scrape_directories fs extensions max_size max_total_size ignore_dirs
                  directories r)) = trace r ++ t
    /\ Forall (allowed_call extensions ignore_dirs directories) t.
Proof.
  apply scrape_directories_loop_calls.
Qed.

(** ** The order of the records *)

Section Order.

Variables (fs : FileSystem) (extensions : gset string)
  (max_size max_total_size : Z) (ignore_dirs : list string).

Lemma for_filenames_order root filenames acc r :
  exists acc' r' l,
    for_filenames fs extensions max_size max_total_size ignore_dirs root filenames acc r
      = (Normal, acc', r')
    /\ Forall (accepted fs extensions max_size ignore_dirs) l
    /\ files acc' = files acc ++ map emitted l
    /\ sublist (map found_at l) (map (pair root) filenames).
Proof.
  revert acc r. induction filenames as [|filename rest IH]; intros acc r; simpl.
  { exists acc, r, []. simpl. rewrite app_nil_r. split_and!; try done. }
  destruct (visit_cases fs extensions max_size max_total_size ignore_dirs
              root filename acc r) as (c & acc1 & r1 & -> & _ & Hcases).
  destruct Hcases as [[-> ->] | (a & Ha & Hroot & Hname & Hfiles & _ & Hcount)].
  - destruct (IH acc r1) as (acc' & r' & l & -> & Hl & Hf & Hsub).
    exists acc', r', l. split_and!; try done. by apply sublist_cons.
  - assert (Hat : found_at a = (root, filename)) by (unfold found_at; congruence).
    destruct Hcount as [(-> & _) | (-> & _)].
    + exists acc1, r1, [a]. simpl. rewrite Hat. split_and!; try done.
      * by constructor.
      * apply sublist_skip, sublist_nil_l.
    + destruct (IH acc1 r1) as (acc' & r' & l & -> & Hl & Hf & Hsub).
      exists acc', r', (a :: l). simpl. rewrite Hat. split_and!; try done.
      * by constructor.
      * by rewrite Hf, Hfiles, <- app_assoc.
      * by apply sublist_skip.
Qed.

Lemma for_walk_order entries acc r :
  exists acc' r' l,
    for_walk fs extensions max_size max_total_size ignore_dirs entries acc r
      = (Normal, acc', r')
    /\ Forall (accepted fs extensions max_size ignore_dirs) l
    /\ files acc' = files acc ++ map emitted l
    /\ sublist (map found_at l) (listing entries).
Proof.
  revert acc r. induction entries as [|[root filenames] rest IH]; intros acc r.
  { exists acc, r, []. simpl. rewrite app_nil_r. split_and!; try done. }
  cbn [for_walk].
  destruct (for_filenames_order root filenames acc r)
    as (acc1 & r1 & l1 & -> & Hl1 & Hf1 & Hsub1).
  destruct (IH acc1 r1) as (acc' & r' & l2 & -> & Hl2 & Hf2 & Hsub2).
  exists acc', r', (l1 ++ l2). rewrite !map_app. split_and!; try done.
  - by apply Forall_app.
  - by rewrite Hf2, Hf1, <- app_assoc.
  - unfold listing. simpl. by apply sublist_app.
Qed.

End Order.

(** X14. The records of a per-directory walk come in the order in which
    the walk listed their files: taken with the folder and name they were
    found at, they are the listing with some entries left out, so no
    listed file gives two records and none comes before a file listed
    earlier. *)
Theorem records_follow_the_listing (fs : FileSystem) (extensions : gset string)
    (max_size max_total_size : Z) (ignore_dirs : list string)
    (top : string) (r : Run) :
  exists acc r' l,
    scrape_directory fs extensions max_size max_total_size ignore_dirs top r
      = (Return acc, r')
    /\ files acc = map emitted l
    /\ Forall (fun a =>
         name (emitted a) = OsPath.basename (OsPath.join (at_root a) (at_filename a))
         /\ directory (emitted a)
            = OsPath.dirname (OsPath.join (at_root a) (at_filename a))) l
    /\ sublist (map found_at l) (listing (fst (fs_walk fs (clock r) top))).
Proof.
  destruct (scrape_directory_unfold fs extensions max_size max_total_size ignore_dirs
              top r) as (acc & r1 & Hw & ->).
  destruct (for_walk_order fs extensions max_size max_total_size ignore_dirs
              (fst (fs_walk fs (clock r) top)) no_totals
              (record_event (Walk top) r))
    as (acc' & r' & l & Hw' & Hl & Hf & Hsub).
  rewrite Hw in Hw'. injection Hw' as <- <-.
  eexists acc, _, l. split; [reflexivity |]. split_and!; try done.
  eapply Forall_impl; [exact Hl |].
  by intros a (_ & _ & _ & _ & _ & _ & Hname & Hdir & _).
Qed.

(** ** The walk over all directories *)

(** X15. The walk over all directories walks them in the order given,
    the first one always, and goes on to the next one exactly as long as
    the added-up total has not gone above the cap: what it walked is the
    front part of the list, and a directory is left out only when the
    total ended above the cap. *)
Theorem directories_walked_in_order_until_cap (fs : FileSystem)
    (extensions : gset string) (max_size max_total_size : Z)
    (ignore_dirs directories : list string) (r : Run) :
  exists acc r' scanned rest,
    scrape_directories fs extensions max_size max_total_size ignore_dirs directories r
      = (Return acc, r')
    /\ directories = scanned ++ rest
    /\ walked (trace r') = walked (trace r) ++ scanned
    /\ (rest = [] \/ max_total_size < total_size acc)
    /\ (directories <> [] -> scanned <> []).
Proof.
  destruct (scrape_directories_log fs extensions max_size max_total_size ignore_dirs
              directories r)
    as (acc & r' & l & scanned & rest & Hs & Hds & Hw & _ & Hstop & Hne & _).
  by exists acc, r', scanned, rest.
Qed.

(** * Closer statements *)

(** ** The two size calls of a run *)

Lemma advances_lookup r r' i ev :
  advances r r' -> trace r !! i = Some ev -> trace r' !! i = Some ev.
Proof. intros (t & -> & _) H. by apply lookup_app_l_Some. Qed.

Lemma asked_twice_later r r' a : advances r r' -> asked_twice r a -> asked_twice r' a.
Proof. intros Hadv [H1 H2]. split; by eapply advances_lookup. Qed.

Section RunLog.

Variables (fs : FileSystem) (extensions : gset string)
  (max_size max_total_size : Z) (ignore_dirs : list string).

Local Abbreviation accepted' := (accepted fs extensions max_size ignore_dirs).

Lemma visit_asks_twice root filename acc r :
  exists c acc' r',
    visit fs extensions max_size max_total_size ignore_dirs root filename acc r
      = (c, acc', r')
    /\ advances r r' /\ (c = Normal \/ c = Break)
    /\ ((c = Normal /\ acc' = acc)
        \/ exists a,
             accepted' a /\ asked_twice r' a
             /\ files acc' = files acc ++ [emitted a]
             /\ total_size acc' = total_size acc + added a).
Proof.
  unfold visit.
  destruct (file_in_ignore_dirs (OsPath.join root filename) ignore_dirs) eqn:Hign.
  { exists Normal, acc, r. split; [done |]. split; [apply advances_refl |].
    split; [by left | by left]. }
  destruct (scrape_file_cases fs (OsPath.join root filename) extensions max_size r)
    as [(r1 & -> & Hadv) | (file & -> & Hext & Hsize & Hbound & Hread & Htext & Hname & Hdir)].
  { exists Normal, acc, r1. split; [done |]. split; [done |]. split; [by left | by left]. }
  set (path := OsPath.join root filename) in *.
  set (r1 := record_event Now _).
  set (a := {| at_root := root; at_filename := filename; at_clock := clock r;
               emitted := file;
               added := size_or_zero fs (3 + clock r) path |}).
  assert (Ha : accepted' a) by (destruct Hbound; repeat split; done).
  assert (Hclock : clock r1 = (3 + clock r)%nat) by (unfold r1; by rewrite !clock_event).
  assert (Htwice : forall r2, trace r2 = trace r1 ++ [Stat path] -> asked_twice r2 a).
  { intros r2 Ht. unfold asked_twice, candidate_path. simpl. fold path. rewrite Ht.
    unfold r1. simpl. rewrite <- !app_assoc. simpl. split.
    - rewrite lookup_app_r by (unfold clock; lia).
      by replace (clock r - length (trace r))%nat with 0%nat by (unfold clock; lia).
    - rewrite lookup_app_r by (unfold clock; lia).
      by replace (S (S (S (clock r))) - length (trace r))%nat with 3%nat
        by (unfold clock; lia). }
  rewrite get_file_size_eq, Hclock.
  assert (Hadd : added a = size_or_zero fs (3 + clock r) path) by done.
  unfold size_or_zero in Hadd.
  destruct (fs_getsize fs (3 + clock r) path) as [e | n]; simpl; rewrite <- Hadd;
    rewrite Z.gtb_ltb;
    destruct (Z.ltb_spec max_total_size (total_size acc + added a));
    do 3 eexists; (split; [reflexivity |]);
    (split; [unfold r1; advance |]);
    (split; [by auto |]); right; exists a; simpl;
    (split; [exact Ha |]); (split; [by apply Htwice |]); done.
Qed.

Lemma for_filenames_asks_twice root filenames acc r :
  exists acc' r' l,
    for_filenames fs extensions max_size max_total_size ignore_dirs root filenames acc r
      = (Normal, acc', r')
    /\ advances r r'
    /\ Forall (fun a => accepted' a /\ asked_twice r' a) l
    /\ files acc' = files acc ++ map emitted l
    /\ total_size acc' = total_size acc + sum_added l.
Proof.
  revert acc r. induction filenames as [|filename rest IH]; intros acc r; simpl.
  { exists acc, r, []. simpl. rewrite app_nil_r. split_and!; try done; try lia.
    apply advances_refl. }
  destruct (visit_asks_twice root filename acc r)
    as (c & acc1 & r1 & -> & Hadv & Hc & Hcases).
  destruct Hcases as [[-> ->] | (a & Ha & Htwice & Hfiles & Htotal)].
  - destruct (IH acc r1) as (acc' & r' & l & -> & Hadv' & Hl & Hf & Ht).
    exists acc', r', l. split_and!; try done. by eapply advances_trans.
  - destruct Hc as [-> | ->].
    + destruct (IH acc1 r1) as (acc' & r' & l & -> & Hadv' & Hl & Hf & Ht).
      exists acc', r', (a :: l). rewrite sum_added_cons. simpl. split_and!; try done.
      * by eapply advances_trans.
      * constructor; [| done]. split; [done | by eapply asked_twice_later].
      * by rewrite Hf, Hfiles, <- app_assoc.
      * lia.
    + exists acc1, r1, [a]. rewrite sum_added_cons. simpl. split_and!; try done.
      * constructor; [by split | constructor].
      * unfold sum_added. simpl. lia.
Qed.

Lemma asked_twice_all_later r r' (l : list acceptance) :
  advances r r' ->
  Forall (fun a => accepted' a /\ asked_twice r a) l ->
  Forall (fun a => accepted' a /\ asked_twice r' a) l.
Proof.
  intros Hadv Hl. eapply Forall_impl; [exact Hl |].
  intros a [Ha Ht]. split; [done | by eapply asked_twice_later].
Qed.

Lemma for_walk_asks_twice entries acc r :
  exists acc' r' l,
    for_walk fs extensions max_size max_total_size ignore_dirs entries acc r
      = (Normal, acc', r')
    /\ advances r r'
    /\ Forall (fun a => accepted' a /\ asked_twice r' a) l
    /\ files acc' = files acc ++ map emitted l
    /\ total_size acc' = total_size acc + sum_added l.
Proof.
  revert acc r. induction entries as [|[root filenames] rest IH]; intros acc r.
  { exists acc, r, []. simpl. rewrite app_nil_r. split_and!; try done; try lia.
    apply advances_refl. }
  cbn [for_walk].
  destruct (for_filenames_asks_twice root filenames acc r)
    as (acc1 & r1 & l1 & -> & Hadv1 & Hl1 & Hf1 & Ht1).
  destruct (IH acc1 r1) as (acc' & r' & l2 & -> & Hadv2 & Hl2 & Hf2 & Ht2).
  exists acc', r', (l1 ++ l2). rewrite sum_added_app, map_app. split_and!; try done.
  - by eapply advances_trans.
  - apply Forall_app. split; [by eapply asked_twice_all_later | done].
  - by rewrite Hf2, Hf1, <- app_assoc.
  - lia.
Qed.

Lemma scrape_directory_asks_twice directory r :
  exists acc r' l,
    scrape_directory fs extensions max_size max_total_size ignore_dirs directory r
      = (Return acc, r')
    /\ advances (record_event (Walk directory) r) r'
    /\ Forall (fun a => accepted' a /\ asked_twice r' a) l
    /\ files acc = map emitted l
    /\ total_size acc = sum_added l.
Proof.
  destruct (scrape_directory_unfold fs extensions max_size max_total_size ignore_dirs
              directory r) as (acc & r1 & Hw & ->).
  destruct (for_walk_asks_twice (fst (fs_walk fs (clock r) directory)) no_totals
              (record_event (Walk directory) r))
    as (acc' & r' & l & Hw' & Hadv & Hl & Hf & Ht).
  rewrite Hw in Hw'. injection Hw' as <- <-.
  eexists acc, _, l. split; [reflexivity |].
  assert (Hlast : advances r1
            match snd (fs_walk fs (clock r) directory) with
            | Some e => record_notice (ErrorNotice (exn_str (IOFailure e))) r1
            | None => r1
            end).
  { destruct (snd (fs_walk fs (clock r) directory)); advance. }
  split_and!; try done.
  - by eapply advances_trans.
  - by eapply asked_twice_all_later.
Qed.

Lemma scrape_directories_loop_asks_twice len_dirs i directories acc r :
  exists acc' r' l,
    scrape_directories_loop fs extensions max_size max_total_size ignore_dirs
      len_dirs i directories acc r = (Return acc', r')
    /\ (exists t, trace r' = trace r ++ t)
    /\ Forall (fun a => accepted' a /\ asked_twice r' a) l
    /\ files acc' = files acc ++ map emitted l
    /\ total_size acc' = total_size acc + sum_added l.
Proof.
  revert i acc r. induction directories as [|directory rest IH]; intros i acc r; simpl.
  { exists acc, r, []. simpl. rewrite app_nil_r. split_and!; try done; try lia.
    exists []. by rewrite app_nil_r. }
  unfold mbind, M_bind, bind, PrintUtils_info.
  destruct (scrape_directory_asks_twice directory
              (record_notice (ProgressNotice (i + 1) len_dirs directory) r))
    as (found & r1 & l1 & -> & Hadv1 & Hl1 & Hf1 & Ht1).
  assert (Hgrow1 : exists t, trace r1 = trace r ++ t).
  { destruct Hadv1 as (t & Ht & _). simpl in Ht. exists ([Walk directory] ++ t).
    by rewrite Ht, <- app_assoc. }
  destruct (_ >? _).
  - eexists _, r1, l1. split; [reflexivity |]. simpl. rewrite Hf1, Ht1.
    split_and!; done.
  - match goal with |- context [scrape_directories_loop _ _ _ _ _ _ _ _ ?acc1 _] =>
      destruct (IH (S i) acc1 r1) as (acc' & r' & l2 & -> & Hgrow2 & Hl2 & Hf2 & Ht2)
    end.
    simpl in Hf2, Ht2.
    exists acc', r', (l1 ++ l2). rewrite sum_added_app, map_app. split_and!; try done.
    + destruct Hgrow1 as [t1 E1]. destruct Hgrow2 as [t2 E2]. exists (t1 ++ t2).
      by rewrite E2, E1, <- app_assoc.
    + apply Forall_app. split; [| done].
      eapply Forall_impl; [exact Hl1 |]. intros a [Ha [H1 H2]].
      destruct Hgrow2 as [t2 E2]. split; [done |].
      split; rewrite E2; by apply lookup_app_l_Some.
    + by rewrite Hf2, Hf1, <- app_assoc.
    + lia.
Qed.

End RunLog.

Lemma sum_added_is_sum_sizes (l : list acceptance) :
  Forall (fun a => added a = size (emitted a)) l ->
  sum_added l = sum_sizes (map emitted l).
Proof.
  induction 1 as [|a l Ha _ IH]; [done |].
  rewrite sum_added_cons. unfold sum_sizes in *. simpl. rewrite <- IH. lia.
Qed.

(** C3, as amended. Every record of the result stands for two size
    calls of the run on its file, the filter's and, three calls later,
    the walk's own; the total is the sum of what the second calls
    returned, and when in this run each of them returned the size that
    the first one returned, which is the record's size, the total is the
    sum of the [size] fields of the records. *)
Theorem total_size_is_sum_when_the_run_restats_agree (fs : FileSystem)
    (extensions : gset string) (max_size max_total_size : Z)
    (ignore_dirs directories : list string) (r : Run) :
  exists acc r' l,
    scrape_directories fs extensions max_size max_total_size ignore_dirs directories r
      = (Return acc, r')
    /\ files acc = map emitted l
    /\ Forall (fun a =>
         asked_twice r' a
         /\ fs_getsize fs (at_clock a) (candidate_path a) = inr (size (emitted a))
         /\ added a = size_or_zero fs (3 + at_clock a) (candidate_path a)) l
    /\ total_size acc = sum_added l
    /\ (Forall (fun a =>
          size_or_zero fs (3 + at_clock a) (candidate_path a) = size (emitted a)) l ->
        total_size acc = sum_sizes (files acc)).
Proof.
  destruct (scrape_directories_loop_asks_twice fs extensions max_size max_total_size
              ignore_dirs (length directories) 0 directories no_totals r)
    as (acc & r' & l & Hs & _ & Hl & Hf & Ht).
  simpl in Hf, Ht.
  assert (Hfacts : Forall (fun a =>
            asked_twice r' a
            /\ fs_getsize fs (at_clock a) (candidate_path a) = inr (size (emitted a))
            /\ added a = size_or_zero fs (3 + at_clock a) (candidate_path a)) l).
  { eapply Forall_impl; [exact Hl |].
    intros a [(_ & _ & Hsize & _ & _ & _ & _ & _ & Hadd) Htwice]. by split_and!. }
  exists acc, r', l. split; [exact Hs |]. split_and!; try done; try lia.
  intros Hagree. rewrite Hf. replace (total_size acc) with (sum_added l) by lia.
  apply sum_added_is_sum_sizes.
  rewrite Forall_forall in Hfacts, Hagree. apply Forall_forall. intros a Ha.
  destruct (Hfacts a Ha) as (_ & _ & ->). by apply Hagree.
Qed.

Lemma late_fs_changes_its_answer : ~ restat_agrees late_fs.
Proof.
  intros H. specialize (H 97%nat "d/a.py" 5 eq_refl). vm_compute in H. discriminate.
Qed.

Lemma total_size_is_sum_when_the_run_restats_agree_witness :
  exists acc r',
    scrape_directories late_fs {["py"]} 1000 1000 [] ["d"] start = (Return acc, r')
    /\ total_size acc = sum_sizes (files acc).
Proof.
  destruct (total_size_is_sum_when_the_run_restats_agree late_fs {["py"]} 1000 1000 []
              ["d"] start) as (acc & r' & l & Hs & _ & Hl & _ & Hsum).
  exists acc, r'. split; [exact Hs |]. apply Hsum.
  assert (Hlen : length (trace r') = 5%nat).
  { vm_compute in Hs. by injection Hs as _ <-. }
  eapply Forall_impl; [exact Hl |].
  intros a ([_ Hsecond] & Hfirst & _).
  apply lookup_lt_Some in Hsecond. rewrite Hlen in Hsecond.
  unfold size_or_zero. unfold late_fs in *. cbn [fs_getsize] in *.
  destruct (String.eqb (candidate_path a) "d/a.py"); [| discriminate].
  destruct (Nat.ltb_spec (at_clock a) 100); [| lia].
  destruct (Nat.ltb_spec (3 + at_clock a) 100); [| lia].
  by injection Hfirst as <-.
Defined.

(** ** Joining a record's fields again *)

Lemma all_char_app c a b :
  Py.all_char c (a +:+ b) = Py.all_char c a && Py.all_char c b.
Proof.
  induction a as [|x a IH]; [done |].
  change (Py.all_char c (String x (a +:+ b))
          = Py.all_char c (String x a) && Py.all_char c b).
  simpl. rewrite IH. by rewrite andb_assoc.
Qed.

Lemma not_endswith_not_all_char c a :
  a <> "" -> Py.endswith_char c a = false -> Py.all_char c a = false.
Proof.
  induction a as [|x a IH]; [done |]. intros _ Hend. simpl in *.
  destruct a as [|y a].
  - by rewrite Hend.
  - rewrite IH; [apply andb_false_r | done | done].
Qed.

Lemma rstrip_char_after c a :
  Py.endswith_char c a = false -> Py.rstrip_char c (a +:+ String c "") = a.
Proof.
  induction a as [|x a IH]; intros Hend.
  - change (Py.rstrip_char c (String c "") = ""). simpl. by rewrite Ascii.eqb_refl.
  - change (Py.rstrip_char c (String x (a +:+ String c "")) = String x a).
    simpl. destruct a as [|y a].
    + change (Py.rstrip_char c ("" +:+ String c "")) with (Py.rstrip_char c (String c "")).
      simpl in Hend |- *. by rewrite Ascii.eqb_refl, Hend.
    + by rewrite IH.
Qed.

Lemma string_app_cons_r (a : string) (c : ascii) (s : string) :
  a +:+ String c s = (a +:+ String c "") +:+ s.
Proof.
  induction a as [|x a IH]; [done |].
  change (String x (a +:+ String c s) = String x ((a +:+ String c "") +:+ s)).
  by rewrite IH.
Qed.

Lemma dirname_after_slash a filename :
  Py.contains "/" filename = false ->
  OsPath.dirname (a +:+ String "/" filename) =
  if negb (Py.all_char "/" (a +:+ "/")) then Py.rstrip_char "/" (a +:+ "/")
  else a +:+ "/".
Proof.
  intros Hf. unfold OsPath.dirname. rewrite (cut_after_slash a filename Hf).
  cbn [fst]. unfold OsPath.sep.
  destruct (String.eqb (a +:+ "/") "") eqn:E; [| done].
  apply String.eqb_eq in E. by destruct a.
Qed.

Lemma join_plain a filename :
  a <> "" -> Py.endswith_char "/" a = false -> Py.contains "/" filename = false ->
  OsPath.join a filename = a +:+ String "/" filename.
Proof.
  intros Ha Hend Hf. unfold OsPath.join, OsPath.sep.
  rewrite (not_contains_not_startswith "/" filename Hf), Hend.
  destruct (String.eqb a "") eqn:E; [by apply String.eqb_eq in E |]. done.
Qed.

(** The record's directory joined with its name is the walked path. *)
Lemma join_dirname_basename root filename :
  Py.contains "/" filename = false -> tidy_root root ->
  OsPath.join (OsPath.dirname (OsPath.join root filename))
    (OsPath.basename (OsPath.join root filename))
  = OsPath.join root filename.
Proof.
  intros Hf Htidy. rewrite (basename_join root filename Hf).
  unfold OsPath.join at 2 3. unfold OsPath.sep.
  rewrite (not_contains_not_startswith "/" filename Hf).
  destruct (String.eqb root "") eqn:Hroot; cbn [orb].
  { apply String.eqb_eq in Hroot as ->.
    change ("" +:+ filename) with filename.
    unfold OsPath.dirname. rewrite (cut_without_slash filename Hf). cbn.
    unfold OsPath.join. by rewrite (not_contains_not_startswith "/" filename Hf). }
  apply String.eqb_neq in Hroot.
  destruct (Py.endswith_char "/" root) eqn:Hend.
  - apply endswith_char_app in Hend as [a Ha].
    assert (Hpath : root +:+ filename = a +:+ String "/" filename).
    { by rewrite Ha, <- string_app_cons_r. }
    rewrite Hpath, (dirname_after_slash a filename Hf). rewrite <- Ha.
    destruct (Py.all_char "/" root) eqn:Hall; cbn [negb].
    + unfold OsPath.join, OsPath.sep.
      rewrite (not_contains_not_startswith "/" filename Hf).
      assert (Py.endswith_char "/" root = true) as ->.
      { rewrite Ha. clear. induction a as [|x a IH]; [done |].
        change (Py.endswith_char "/" (String x (a +:+ "/")) = true). simpl.
        destruct a; [done | exact IH]. }
      rewrite orb_true_r. by rewrite Hpath.
    + assert (Hnot : Py.endswith_char "/" a = false).
      { destruct (Py.endswith_char "/" a) eqn:E; [| done].
        apply endswith_char_app in E as [b Hb].
        rewrite (Htidy b) in Hall; [done |].
        rewrite Ha, Hb. by rewrite string_app_assoc. }
      assert (Hne : a <> "").
      { intros ->. by rewrite Ha in Hall. }
      rewrite Ha, (rstrip_char_after "/" a Hnot).
      by apply join_plain.
  - assert (Hpath : root +:+ "/" +:+ filename = root +:+ String "/" filename) by done.
    rewrite Hpath, (dirname_after_slash root filename Hf).
    rewrite all_char_app, (not_endswith_not_all_char "/" root Hroot Hend). cbn [andb negb].
    rewrite (rstrip_char_after "/" root Hend).
    by apply join_plain.
Qed.

Lemma accepted_kept_clear fs extensions max_size ignore_dirs directories a :
  accepted fs extensions max_size ignore_dirs a -> listed fs directories a ->
  kept_clear fs directories ignore_dirs (emitted a).
Proof.
  intros (Hign & _ & _ & _ & _ & _ & Hname & Hdir & _) (t & d & fns & Hd & H1 & H2).
  exists (at_root a), fns, (at_filename a), t, d.
  split_and!; try done.
  - by apply file_in_ignore_dirs_false.
  - intros Hslash Htidy.
    assert (Hjoin : OsPath.join (directory (emitted a)) (name (emitted a))
                    = OsPath.join (at_root a) (at_filename a)).
    { rewrite Hname, Hdir. by apply join_dirname_basename. }
    split; [exact Hjoin |]. by rewrite Hjoin.
Qed.

(** C5, as amended. No record comes from a walked path, the walked
    folder joined with the listed name, that holds an entry of the ignore
    list as a substring; the record's directory and name are the
    [dirname] and [basename] of that path, and joined again they are that
    path, and so hold no entry, whenever the listed name has no slash and
    the walked folder does not end in two slashes.  The test is
    containment in the whole walked path, so the entry [src] also drops
    [src2/file.py]. *)
Theorem walked_paths_hold_no_ignore_entry (fs : FileSystem) (extensions : gset string)
    (max_size max_total_size : Z) (ignore_dirs : list string) :
  (forall filename,
     file_in_ignore_dirs filename ignore_dirs = true
     <-> exists ignore_dir pre post,
           In ignore_dir ignore_dirs /\ filename = pre +:+ ignore_dir +:+ post)
  /\ (forall directories r,
        exists acc r',
          scrape_directories fs extensions max_size max_total_size ignore_dirs
            directories r = (Return acc, r')
          /\ Forall (kept_clear fs directories ignore_dirs) (files acc))
  /\ (forall args doc,
        In doc (dumped (trace (snd (main fs args start)))) ->
        Forall (kept_clear fs (directory_list args) (ignore_list args)) (doc_files doc))
  /\ file_in_ignore_dirs "src2/file.py" ["src"] = true.
Proof.
  assert (Hwalk : forall exts ms mts ign directories r,
            exists acc r',
              scrape_directories fs exts ms mts ign directories r = (Return acc, r')
              /\ Forall (kept_clear fs directories ign) (files acc)).
  { intros exts ms mts ign directories r.
    destruct (scrape_directories_log fs exts ms mts ign directories r)
      as (acc & r' & l & scanned & rest & Hs & _ & _ & _ & _ & _ & Hl & Hf & _).
    exists acc, r'. split; [exact Hs |]. rewrite Hf. apply Forall_map.
    eapply Forall_impl; [exact Hl |]. intros a [Ha Hlisted]. simpl.
    by eapply accepted_kept_clear. }
  split_and!.
  - intros filename. apply file_in_ignore_dirs_true.
  - apply Hwalk.
  - intros args doc Hdoc.
    apply main_dumped in Hdoc as [[] | (tokens & acc & r1 & _ & Hs & ->)]. simpl.
    destruct (Hwalk (list_to_set tokens) (arg_max_size args) (arg_max_total_size args)
                (ignore_list args) (directory_list args) start) as (acc' & r' & Hs' & H).
    rewrite Hs in Hs'. by injection Hs' as <- <-.
  - reflexivity.
Qed.

Lemma walked_paths_hold_no_ignore_entry_witness :
  Forall (kept_clear docs_fs ["docs/"] ["sub"]) (doc_files docs_document_without_sub).
Proof.
  apply (proj1 (proj2 (proj2 (walked_paths_hold_no_ignore_entry docs_fs {["py"]}
                                1000 1000 [])))
           docs_args_without_sub docs_document_without_sub).
  exact docs_document_without_sub_dumped.
Defined.

(** C5, as stated, fails: walking [docs//] with the ignore entry
    [docs/a], the program writes the record with directory [docs] and
    name [a.py], and these joined hold the entry. *)
Lemma rejoined_record_holds_an_ignore_entry :
  exists doc file,
    In doc (dumped (trace (snd (main doubled_slash_fs doubled_slash_args start))))
    /\ In file (doc_files doc)
    /\ directory file = "docs" /\ name file = "a.py"
    /\ In "docs/a" (ignore_list doubled_slash_args)
    /\ Py.contains "docs/a" (OsPath.join (directory file) (name file)) = true.
Proof.
  eexists _, _. split; [vm_compute; left; reflexivity |].
  split; [left; reflexivity |].
  split; [reflexivity |]. split; [reflexivity |].
  split; [vm_compute; left; reflexivity | reflexivity].
Qed.

(** C6. The file name [README] has no dot and so the empty extension,
    which is asked for; but the filter takes the extension from the
    joined path, and under the folder [release-1.2] that is [2/README]:
    the file is dropped without one call on it and the document written
    is empty.  Under the folder [plain] the same file is taken. *)
Theorem extension_is_taken_from_the_joined_path :
  get_file_extension "README" = ""
  /\ get_file_extension (OsPath.join "release-1.2" "README") = "2/README"
  /\ confirm_extension (OsPath.join "release-1.2" "README") {[""]} = false
  /\ scrape_file release_fs (OsPath.join "release-1.2" "README") {[""]} 1000 start
     = (Return None, start)
  /\ trace (snd (main release_fs release_args start))
     = [Walk "release-1.2";
        Dump "out.json" {| doc_files := []; doc_total_size := 0; doc_file_count := 0 |}]
  /\ (exists acc r',
        scrape_directories release_fs {[""]} 1000 1000 ["node_modules"] ["plain"] start
          = (Return acc, r')
        /\ map (fun f => (directory f, name f, size f)) (files acc) = [("plain", "README", 10)]
        /\ file_count acc = 1)
  /\ map (fun doc => map (fun f => (directory f, name f)) (doc_files doc))
       (dumped (trace (snd (main release_fs plain_folder_args start))))
     = [[("plain", "README")]].
Proof.
  split_and!; try (by vm_compute).
  eexists _, _. split; [by vm_compute |]. by vm_compute.
Qed.

(** ** A failure of the walk's own size call *)





